(** * practice-neo4j: entity mapping and batch writes of the Python client

    The development follows [client/python/src/users.py] and
    [client/python/src/basic.py].  Python values are embedded as a small
    inductive type of the scalars that travel between the scripts and the
    graph store, property dictionaries as insertion-ordered association
    lists, exceptions as values of an error type, and the calls into the
    Neo4j driver as a state-and-error monad over a world holding the graph,
    a trace of driver events and a schedule of driver failures. *)

From Stdlib Require Import List String ZArith Bool Lia Permutation.
Import ListNotations.
Open Scope string_scope.
Open Scope list_scope.

(** ** Python values *)

(** [datetime.date]: year, month, day. *)
Record date := mk_date { year : Z; month : Z; day : Z }.

(** [datetime.datetime] (naive), as a date and a time of day. *)
Record datetime := mk_datetime {
  dt_date : date; hour : Z; minute : Z; second : Z; microsecond : Z }.

(** The scalars found in the fields of the domain objects and in property
    dictionaries.  [VDate]/[VDateTime] are the interpreter's native
    [datetime.date]/[datetime.datetime]; [VNeoDate]/[VNeoDateTime] are the
    driver's [neo4j.time.Date]/[neo4j.time.DateTime], the classes in which
    temporal properties come back from the store.  The two families are
    unrelated classes: [isinstance(d, Date)] is false for a native date. *)
Inductive value :=
| VNone
| VInt (n : Z)
| VStr (s : string)
| VDate (d : date)
| VNeoDate (d : date)
| VDateTime (t : datetime)
| VNeoDateTime (t : datetime).

(** Python truthiness, as used by [x if v else y]. *)
Definition truthy (v : value) : bool :=
  match v with
  | VNone => false
  | VInt n => negb (Z.eqb n 0)
  | VStr s => negb (String.eqb s "")
  | _ => true
  end.

(** A [dict] with string keys: an insertion-ordered association list. *)
Definition dict := list (string * value).

(** [d.get(key)]: the value under [key], [None] when the key is absent. *)
Fixpoint get (d : dict) (key : string) : value :=
  match d with
  | [] => VNone
  | (k, v) :: d' => if String.eqb k key then v else get d' key
  end.

(** ** Exceptions *)

Inductive exn :=
| ValueError        (* raised by [Gender(code)] on an unknown code *)
| AttributeError    (* attribute access on [None] *)
| KeyError          (* [record[key]] on a missing field *)
| IndexError        (* list index out of range *)
| DriverError.      (* any error raised by the Neo4j driver or the store *)

Inductive result (A : Type) :=
| Ok (a : A)
| Raise (e : exn).
Arguments Ok {A} a.
Arguments Raise {A} e.

(** ** users.py: Gender *)

Inductive Gender := MALE | FEMALE | OTHER.

(** [member.value] *)
Definition Gender_value (g : Gender) : string :=
  match g with
  | MALE => "male"
  | FEMALE => "female"
  | OTHER => "other"
  end.

(** [Gender(v)]: lookup of a member by value; [ValueError] when no member
    has that value. *)
Definition Gender_of_value (v : value) : result Gender :=
  match v with
  | VStr s =>
      if String.eqb s "male" then Ok MALE
      else if String.eqb s "female" then Ok FEMALE
      else if String.eqb s "other" then Ok OTHER
      else Raise ValueError
  | _ => Raise ValueError
  end.

(** ** users.py: User *)

Module User.

(** [User._Properties].  [user_id] and [name] are annotated [str], but
    [from_entity] fills them with whatever [properties.get] returns, so
    they hold an arbitrary value. *)
Record _Properties := mk_Properties {
  user_id : value;
  name : value;
  birth_date : option date;
  gender : option Gender }.

(** [User]: one attribute, [properties : Optional[User._Properties]]. *)
Record t := mk { properties : option _Properties }.

(** [User.__init__] *)
Definition __init__ (user_id name : value) (birth_date : option date)
    (gender : option Gender) : t :=
  mk (Some (mk_Properties user_id name birth_date gender)).

(** [User._Properties.to_dict].  Enum members are truthy, so
    [self.gender.value if self.gender else None] takes the first branch
    exactly when the gender is set. *)
Definition _Properties_to_dict (self : _Properties) : dict :=
  [ ("user_id", user_id self);
    ("name", name self);
    ("birth_date", match birth_date self with
                   | Some d => VDate d
                   | None => VNone
                   end);
    ("gender", match gender self with
               | Some g => VStr (Gender_value g)
               | None => VNone
               end) ].

(** [User.to_dict]: the dictionary [{"properties": ...}], given by the
    value under its one key.  A dataclass instance is truthy, so the test
    [if self.properties] is a test for [None]. *)
Definition to_dict (self : t) : option dict :=
  match properties self with
  | Some p => Some (_Properties_to_dict p)
  | None => None
  end.

(** [User.from_entity], on [dict(node)]. *)
Definition from_entity (node : dict) : result t :=
  let properties := node in
  let birth_date := get properties "birth_date" in
  let gender := get properties "gender" in
  match (if truthy gender then
           match Gender_of_value gender with
           | Ok g => Ok (Some g)
           | Raise e => Raise e
           end
         else Ok None) with
  | Raise e => Raise e
  | Ok g =>
      Ok (__init__ (get properties "user_id")
                   (get properties "name")
                   (match birth_date with
                    | VNeoDate d => Some d      (* [birth_date.to_native()] *)
                    | _ => None
                    end)
                   g)
  end.

(** The expression [u.properties.user_id]: [AttributeError] when
    [properties] is [None]. *)
Definition properties_user_id (u : t) : result value :=
  match properties u with
  | Some p => Ok (user_id p)
  | None => Raise AttributeError
  end.

End User.

(** ** users.py: FollowRelationship *)

Module FollowRelationship.

(** [FollowRelationship._Properties] *)
Record _Properties := mk_Properties {
  relationship_id : value;
  since : value }.

Record t := mk {
  start_node : User.t;
  end_node : User.t;
  properties : option _Properties }.

(** [FollowRelationship.__init__] *)
Definition __init__ (relationship_id : value) (start_node end_node : User.t)
    (since : value) : t :=
  mk start_node end_node (Some (mk_Properties relationship_id since)).

(** [FollowRelationship._Properties.to_dict] *)
Definition _Properties_to_dict (self : _Properties) : dict :=
  [ ("relationship_id", relationship_id self);
    ("since", since self) ].

(** The dictionary built by [FollowRelationship.to_dict], by its three
    keys. *)
Record follow_dict := mk_follow_dict {
  start_user_id : value;
  end_user_id : value;
  fd_properties : option dict }.

(** [FollowRelationship.to_dict] *)
Definition to_dict (self : t) : result follow_dict :=
  match User.properties_user_id (start_node self) with
  | Raise e => Raise e
  | Ok s =>
      match User.properties_user_id (end_node self) with
      | Raise e => Raise e
      | Ok e =>
          Ok (mk_follow_dict s e
                (match properties self with
                 | Some p => Some (_Properties_to_dict p)
                 | None => None
                 end))
      end
  end.

(** [FollowRelationship.from_entity], on [dict(relationship)]. *)
Definition from_entity (relationship : dict) (start_node end_node : User.t)
    : t :=
  let properties := relationship in
  __init__ (get properties "relationship_id") start_node end_node
           (get properties "since").

End FollowRelationship.

(** ** The graph store

    The store and the driver are external to the repository.  The scripts
    send the store five query texts; it is modelled as far as those five
    queries need. *)

(** Modelled from the spec: the external graph store (section 6, "accepts
    a query string and a mapping of named parameters; returns a sequence of
    records, each a mapping from field name to value (scalar, node, or
    edge)").  A node has a label set and a property set, an edge is
    directed, typed and has a property set of its own (glossary). *)
Record node := mk_node {
  node_id : nat;
  labels : list string;
  node_props : dict }.

Record relationship := mk_rel {
  rel_id : nat;
  rel_type : string;
  rel_start : nat;
  rel_end : nat;
  rel_props : dict }.

Record graph := mk_graph {
  nodes : list node;
  rels : list relationship;
  next_id : nat }.

Definition empty_graph : graph := mk_graph [] [] 0.

(** What a record field holds in these queries: a node or an edge. *)
Inductive entity :=
| ENode (n : node)
| ERel (r : relationship).

(** [dict(entity)]: the property set of a node or edge. *)
Definition entity_dict (e : entity) : dict :=
  match e with
  | ENode n => node_props n
  | ERel r => rel_props r
  end.

Definition record := list (string * entity).

(** [record[key]] *)
Fixpoint record_get (r : record) (key : string) : result entity :=
  match r with
  | [] => Raise KeyError
  | (k, e) :: r' => if String.eqb k key then Ok e else record_get r' key
  end.

Definition date_eqb (a b : date) : bool :=
  Z.eqb (year a) (year b) && Z.eqb (month a) (month b) && Z.eqb (day a) (day b).

Definition datetime_eqb (a b : datetime) : bool :=
  date_eqb (dt_date a) (dt_date b) && Z.eqb (hour a) (hour b)
  && Z.eqb (minute a) (minute b) && Z.eqb (second a) (second b)
  && Z.eqb (microsecond a) (microsecond b).

Definition value_eqb (a b : value) : bool :=
  match a, b with
  | VNone, VNone => true
  | VInt x, VInt y => Z.eqb x y
  | VStr x, VStr y => String.eqb x y
  | VDate x, VDate y => date_eqb x y
  | VNeoDate x, VNeoDate y => date_eqb x y
  | VDateTime x, VDateTime y => datetime_eqb x y
  | VNeoDateTime x, VNeoDateTime y => datetime_eqb x y
  | _, _ => false
  end.

Definition is_none (v : value) : bool :=
  match v with VNone => true | _ => false end.

(** Modelled from the spec: a value after it has been written to the store
    and read back through the driver.  Temporal values come back in the
    driver's classes ("a native date value must convert to a calendar
    date", section 4.1); strings and integers come back as they went. *)
Definition to_store (v : value) : value :=
  match v with
  | VDate d => VNeoDate d
  | VDateTime t => VNeoDateTime t
  | _ => v
  end.

(** Modelled from the spec: [SET x = map] replaces the property set of
    [x] by the entries of the map; an entry whose value is null sets no
    property ("absent optional fields serialize as null/absent"). *)
Definition store_props (d : dict) : dict :=
  map (fun kv => (fst kv, to_store (snd kv)))
      (filter (fun kv => negb (is_none (snd kv))) d).

Definition has_label (l : string) (n : node) : bool :=
  existsb (String.eqb l) (labels n).

(** Modelled from the spec: the pattern [(:User {user_id: v})] of the
    follow query, "looks up the two endpoint nodes by [user_id]": the nodes
    labelled User whose [user_id] property equals [v]; null equals
    nothing. *)
Definition matches_user_id (v : value) (n : node) : bool :=
  has_label "User" n && negb (is_none v)
  && value_eqb (get (node_props n) "user_id") (to_store v).

(** The five query texts of the scripts, with their parameters. *)
Inductive query :=
| CREATE_n                          (* basic.py:9   CREATE (n) *)
| MATCH_n_RETURN_n                  (* basic.py:14  MATCH (n) RETURN n *)
| MATCH_n_DETACH_DELETE_n           (* basic.py:18  MATCH (n) DETACH DELETE n *)
| UNWIND_users (users : list (option dict))
                                    (* users.py:141-146 *)
| UNWIND_follow_relationships
    (follow_relationships : list FollowRelationship.follow_dict).
                                    (* users.py:164-171 *)

(** Modelled from the spec: [UNWIND $users AS user CREATE (u:User)
    SET u = user.properties RETURN u], "unwinds the list and creates one
    node per entry".  A null [user.properties] is not a map and is
    rejected. *)
Fixpoint create_users (users : list (option dict)) (g : graph)
    : result (list record * graph) :=
  match users with
  | [] => Ok ([], g)
  | None :: _ => Raise DriverError
  | Some props :: users' =>
      let u := mk_node (next_id g) ["User"] (store_props props) in
      match create_users users'
              (mk_graph (nodes g ++ [u]) (rels g) (S (next_id g))) with
      | Raise e => Raise e
      | Ok (rs, g') => Ok ([("u", ENode u)] :: rs, g')
      end
  end.

(** Modelled from the spec: the rows left after [UNWIND
    $follow_relationships AS follow MATCH (start:User {user_id:
    follow.start_user_id}) MATCH (end:User {user_id: follow.end_user_id})]:
    for each entry, every pair of a start match and an end match; "if
    either endpoint [user_id] does not already exist in the store, that
    individual entry yields no result row". *)
Definition match_rows (ns : list node) (follow : FollowRelationship.follow_dict)
    : list (FollowRelationship.follow_dict * node * node) :=
  flat_map
    (fun s =>
       map (fun e => (follow, s, e))
           (filter (matches_user_id (FollowRelationship.end_user_id follow)) ns))
    (filter (matches_user_id (FollowRelationship.start_user_id follow)) ns).

(** Modelled from the spec: [CREATE (start) -[f:FOLLOWS]-> (end)
    SET f = follow.properties RETURN f, start, end] over the matched rows,
    "creates the directed edge". *)
Fixpoint create_edges
    (rows : list (FollowRelationship.follow_dict * node * node)) (g : graph)
    : result (list record * graph) :=
  match rows with
  | [] => Ok ([], g)
  | (follow, s, e) :: rows' =>
      match FollowRelationship.fd_properties follow with
      | None => Raise DriverError
      | Some props =>
          let f := mk_rel (next_id g) "FOLLOWS" (node_id s) (node_id e)
                          (store_props props) in
          match create_edges rows'
                  (mk_graph (nodes g) (rels g ++ [f]) (S (next_id g))) with
          | Raise err => Raise err
          | Ok (rs, g') =>
              Ok ([("f", ERel f); ("start", ENode s); ("end", ENode e)] :: rs,
                  g')
          end
      end
  end.

(** Modelled from the spec: what the store does with each query: the
    records it returns and the graph it leaves. *)
Definition exec (q : query) (g : graph) : result (list record * graph) :=
  match q with
  | CREATE_n =>
      Ok ([], mk_graph (nodes g ++ [mk_node (next_id g) [] []]) (rels g)
                       (S (next_id g)))
  | MATCH_n_RETURN_n =>
      Ok (map (fun n => [("n", ENode n)]) (nodes g), g)
  | MATCH_n_DETACH_DELETE_n =>
      Ok ([], mk_graph [] [] (next_id g))
  | UNWIND_users users => create_users users g
  | UNWIND_follow_relationships follows =>
      create_edges (flat_map (match_rows (nodes g)) follows) g
  end.

(** ** The driver, as a state-and-error monad *)

(** What the scripts do to the outside, in the order they do it. *)
Inductive event :=
| DriverOpen        (* [GraphDatabase.driver(uri)] *)
| DriverClose       (* [driver.close()], also on leaving [with ... as driver] *)
| SessionOpen       (* [driver.session()] *)
| SessionClose      (* [session.close()], also on leaving [with ... as session] *)
| Run               (* [session.run(...)] *)
| Consume           (* [result.consume()] *)
| Print.            (* [print(...)] *)

(** The world of a script: the graph in the store, the events so far in
    order, and the failures of the driver: [faults k] tells whether the
    [k]-th call into the driver raises, [calls] counts the calls made. *)
Record world := mk_world {
  store : graph;
  trace : list event;
  faults : nat -> bool;
  calls : nat }.

Definition M (A : Type) : Type := world -> result A * world.

Definition ret {A} (a : A) : M A := fun w => (Ok a, w).

Definition raise {A} (e : exn) : M A := fun w => (Raise e, w).

Definition bind {A B} (m : M A) (f : A -> M B) : M B :=
  fun w =>
    match m w with
    | (Ok a, w') => f a w'
    | (Raise e, w') => (Raise e, w')
    end.

Notation "x <- m ;; k" := (bind m (fun x => k))
  (at level 61, m at next level, right associativity).
Notation "m ;; k" := (bind m (fun _ => k))
  (at level 61, right associativity).

(** A pure computation that may raise. *)
Definition lift {A} (r : result A) : M A := fun w => (r, w).

Definition log (ev : event) : M unit :=
  fun w => (Ok tt, mk_world (store w) (trace w ++ [ev]) (faults w) (calls w)).

(** A call into the driver: it raises when the failure schedule says so,
    and leaves its event in the trace otherwise. *)
Definition driver_call (ev : event) : M unit :=
  fun w =>
    if faults w (calls w)
    then (Raise DriverError,
          mk_world (store w) (trace w) (faults w) (S (calls w)))
    else (Ok tt,
          mk_world (store w) (trace w ++ [ev]) (faults w) (S (calls w))).

(** [try: body except Exception as e: handler(e)] *)
Definition try_except {A} (body : M A) (handler : exn -> M A) : M A :=
  fun w =>
    match body w with
    | (Ok a, w') => (Ok a, w')
    | (Raise e, w') => handler e w'
    end.

(** [with enter as r: body]: once [enter] has returned, [exit] runs
    whether [body] returns or raises, and the outcome of [body] stands. *)
Definition with_ {R A} (enter : M R) (exit : R -> M unit) (body : R -> M A)
    : M A :=
  fun w =>
    match enter w with
    | (Raise e, w1) => (Raise e, w1)
    | (Ok r, w1) =>
        let (res, w2) := body r w1 in
        match exit r w2 with
        | (Ok _, w3) => (res, w3)
        | (Raise e, w3) => (Raise e, w3)
        end
    end.

(** [for x in xs: out.append(f(x))] *)
Fixpoint for_append {A B} (f : A -> M B) (xs : list A) : M (list B) :=
  match xs with
  | [] => ret []
  | x :: xs' => y <- f x ;; ys <- for_append f xs' ;; ret (y :: ys)
  end.

(** [xs[i]] *)
Definition index {A} (xs : list A) (i : nat) : M A :=
  match nth_error xs i with
  | Some x => ret x
  | None => raise IndexError
  end.

Inductive Driver := mk_driver (uri : string).
Inductive Session := mk_session (driver : Driver).

(** [GraphDatabase.driver(uri)] *)
Definition GraphDatabase_driver (uri : string) : M Driver :=
  driver_call DriverOpen ;; ret (mk_driver uri).

(** [driver.close()] *)
Definition Driver_close (driver : Driver) : M unit := log DriverClose.

(** [driver.session()] *)
Definition Driver_session (driver : Driver) : M Session :=
  driver_call SessionOpen ;; ret (mk_session driver).

(** [session.close()] *)
Definition Session_close (session : Session) : M unit := log SessionClose.

(** [session.run(query, ...)]: the records of the result; the store
    changes only when the query goes through. *)
Definition Session_run (session : Session) (q : query) : M (list record) :=
  driver_call Run ;;
  fun w =>
    match exec q (store w) with
    | Ok (rs, g) => (Ok rs, mk_world g (trace w) (faults w) (calls w))
    | Raise e => (Raise e, w)
    end.

(** [result.consume()] *)
Definition Result_consume (result : list record) : M unit :=
  driver_call Consume.

Definition print : M unit := log Print.

(** ** users.py: the batch writes *)

(** [create_user_nodes], users.py:134-155. *)
Definition create_user_nodes (driver : Driver) (users : list User.t)
    : M (list User.t) :=
  with_ (Driver_session driver) Session_close (fun session =>
    let users_dict := map User.to_dict users in
    result <- Session_run session (UNWIND_users users_dict) ;;
    for_append
      (fun record =>
         user_node <- lift (record_get record "u") ;;
         lift (User.from_entity (entity_dict user_node)))
      result).

(** [[rel.to_dict() for rel in follow_relationships]] *)
Fixpoint to_dicts (follow_relationships : list FollowRelationship.t)
    : result (list FollowRelationship.follow_dict) :=
  match follow_relationships with
  | [] => Ok []
  | rel :: rels' =>
      match FollowRelationship.to_dict rel with
      | Raise e => Raise e
      | Ok d =>
          match to_dicts rels' with
          | Raise e => Raise e
          | Ok ds => Ok (d :: ds)
          end
      end
  end.

(** The body of the loop of [create_follow_relationships] on one
    record. *)
Definition decode_follow (record : record) : M FollowRelationship.t :=
  follow_relationship <- lift (record_get record "f") ;;
  start_node <- lift (record_get record "start") ;;
  end_node <- lift (record_get record "end") ;;
  s <- lift (User.from_entity (entity_dict start_node)) ;;
  e <- lift (User.from_entity (entity_dict end_node)) ;;
  ret (FollowRelationship.from_entity (entity_dict follow_relationship) s e).

(** [create_follow_relationships], users.py:157-188. *)
Definition create_follow_relationships (driver : Driver)
    (follow_relationships : list FollowRelationship.t)
    : M (list FollowRelationship.t) :=
  with_ (Driver_session driver) Session_close (fun session =>
    relationships_dict <- lift (to_dicts follow_relationships) ;;
    result <- Session_run session
                (UNWIND_follow_relationships relationships_dict) ;;
    for_append decode_follow result).

(** ** The scripts *)

Module users_py.

(** [main], users.py:190-236.  [uuid4 k] is the string of the [k]-th
    [str(uuid.uuid4())]. *)
Definition main (uuid4 : nat -> string) : M unit :=
  try_except
    (with_ (GraphDatabase_driver "bolt://neo4j:7687") Driver_close
       (fun driver =>
          let users :=
            [ User.__init__ (VStr (uuid4 0%nat)) (VStr "Alice") None None;
              User.__init__ (VStr (uuid4 1%nat)) (VStr "Bob")
                            (Some (mk_date 1990 1 2)) None;
              User.__init__ (VStr (uuid4 2%nat)) (VStr "Charlie")
                            (Some (mk_date 2000 10 11)) (Some FEMALE) ] in
          created_users <- create_user_nodes driver users ;;
          u0 <- index created_users 0 ;;
          u1 <- index created_users 1 ;;
          let r01 := FollowRelationship.__init__ (VStr (uuid4 3%nat)) u0 u1
                       (VDateTime (mk_datetime (mk_date 2024 1 2) 0 0 0 0)) in
          u1' <- index created_users 1 ;;
          u2 <- index created_users 2 ;;
          let r12 := FollowRelationship.__init__ (VStr (uuid4 4%nat)) u1' u2
                       (VDateTime (mk_datetime (mk_date 2025 3 4) 0 0 0 0)) in
          u2' <- index created_users 2 ;;
          u1'' <- index created_users 1 ;;
          let r21 := FollowRelationship.__init__ (VStr (uuid4 5%nat)) u2' u1''
                       (VDateTime (mk_datetime (mk_date 2026 5 6) 0 0 0 0)) in
          created_relationships <-
            create_follow_relationships driver [r01; r12; r21] ;;
          ret tt))
    (fun e => print).

End users_py.

Module basic_py.

(** [main], basic.py:3-24. *)
Definition main : M unit :=
  driver <- GraphDatabase_driver "bolt://neo4j:7687" ;;
  session <- Driver_session driver ;;
  result_create <- Session_run session CREATE_n ;;
  Result_consume result_create ;;
  print ;;
  result_match <- Session_run session MATCH_n_RETURN_n ;;
  print ;;
  result_delete <- Session_run session MATCH_n_DETACH_DELETE_n ;;
  Result_consume result_delete ;;
  print ;;
  Session_close session ;;
  Driver_close driver.

End basic_py.

(** ** Resources held at the end of a trace *)

Definition event_eqb (a b : event) : bool :=
  match a, b with
  | DriverOpen, DriverOpen | DriverClose, DriverClose
  | SessionOpen, SessionOpen | SessionClose, SessionClose
  | Run, Run | Consume, Consume | Print, Print => true
  | _, _ => false
  end.

Definition count (ev : event) (t : list event) : nat :=
  List.length (filter (event_eqb ev) t).

(** Sessions, and drivers, opened and not closed. *)
Definition live_sessions (t : list event) : Z :=
  Z.of_nat (count SessionOpen t) - Z.of_nat (count SessionClose t).

Definition live_drivers (t : list event) : Z :=
  Z.of_nat (count DriverOpen t) - Z.of_nat (count DriverClose t).

Definition released (t : list event) : Prop :=
  live_sessions t = 0%Z /\ live_drivers t = 0%Z.

(** No call into the driver fails. *)
Definition no_faults (w : world) : Prop := forall k, faults w k = false.

(** A world in which nothing has happened yet: empty store, empty trace,
    and the given failure schedule. *)
Definition fresh (f : nat -> bool) : world := mk_world empty_graph [] f 0.

(** ** Vocabulary of the statements *)

(** [key in d] *)
Definition has_key (d : dict) (key : string) : bool :=
  existsb (fun kv => String.eqb (fst kv) key) d.

(** All four fields of a User hold a value of their annotated type. *)
Definition populated (p : User._Properties) : Prop :=
  (exists s, User.user_id p = VStr s) /\ (exists s, User.name p = VStr s)
  /\ User.birth_date p <> None /\ User.gender p <> None.

(** The three gender codes. *)
Definition gender_codes : list string := ["male"; "female"; "other"].

(** The gender entry of a property set is absent or falsy, or one of the
    three codes. *)
Definition gender_decodes (node : dict) : Prop :=
  truthy (get node "gender") = false
  \/ exists g, Gender_of_value (get node "gender") = Ok g.

(** The two ways the code makes a User. *)
Inductive constructed : User.t -> Prop :=
| by_init user_id name birth_date gender :
    constructed (User.__init__ user_id name birth_date gender)
| by_from_entity node u :
    User.from_entity node = Ok u -> constructed u.

(** A FollowRelationship as [FollowRelationship.__init__] leaves it, over
    two Users as [User.__init__] leaves them. *)
Definition well_formed (rel : FollowRelationship.t) : Prop :=
  FollowRelationship.properties rel <> None
  /\ User.properties (FollowRelationship.start_node rel) <> None
  /\ User.properties (FollowRelationship.end_node rel) <> None.

(** No User node of the graph carries [v] as its [user_id]. *)
Definition never_created (g : graph) (v : value) : Prop :=
  filter (matches_user_id v) (nodes g) = [].

(** An entry one of whose endpoints was never created. *)
Definition dangling (g : graph) (rel : FollowRelationship.t) : Prop :=
  exists v,
    (User.properties_user_id (FollowRelationship.start_node rel) = Ok v
     \/ User.properties_user_id (FollowRelationship.end_node rel) = Ok v)
    /\ never_created g v.

(** No two User nodes of the graph carry the same [user_id]. *)
Definition unique_user_ids (g : graph) : Prop :=
  forall v, (List.length (filter (matches_user_id v) (nodes g)) <= 1)%nat.

(** Every User node of the graph has a gender that decodes. *)
Definition decodable (g : graph) : Prop :=
  forall n, In n (nodes g) -> has_label "User" n = true ->
            gender_decodes (node_props n).

(** A User after a round trip through the store. *)
Definition stored (p : User._Properties) : User.t :=
  User.__init__ (to_store (User.user_id p)) (to_store (User.name p))
                (User.birth_date p) (User.gender p).

(** The events of [basic.main] when nothing fails. *)
Definition basic_trace : list event :=
  [DriverOpen; SessionOpen; Run; Consume; Print; Run; Print; Run; Consume;
   Print; SessionClose; DriverClose].

(** An event other than an opening or a closing. *)
Definition plain (ev : event) : Prop :=
  ev = Run \/ ev = Consume \/ ev = Print.

(** Events that leave no session and no driver open, among them at most
    [n] session openings. *)
Definition neutral (n : nat) (s : list event) : Prop :=
  live_sessions s = 0%Z /\ live_drivers s = 0%Z
  /\ (count SessionOpen s <= n)%nat.

(** [t'] extends [t] by such events. *)
Definition scoped (n : nat) (t t' : list event) : Prop :=
  exists s, t' = t ++ s /\ neutral n s.

(** A computation that, from every world and on every exit path, leaves
    open no session and no driver that was not open before. *)
Definition keeps_scope {A} (n : nat) (m : M A) : Prop :=
  forall w, scoped n (trace w) (trace (snd (m w))).

(** The nodes that the user query creates for the property maps [ds],
    numbered from [k]. *)
Fixpoint user_nodes (ds : list dict) (k : nat) : list node :=
  match ds with
  | [] => []
  | d :: ds' => mk_node k ["User"] (store_props d) :: user_nodes ds' (S k)
  end.

(** The records that the follow query returns for the matched [rows], the
    edges numbered from [k]. *)
Fixpoint edge_records
    (rows : list (FollowRelationship.follow_dict * node * node)) (k : nat)
    : list record :=
  match rows with
  | [] => []
  | (follow, s, e) :: rows' =>
      [("f", ERel (mk_rel k "FOLLOWS" (node_id s) (node_id e)
                     (store_props
                        (match FollowRelationship.fd_properties follow with
                         | Some props => props
                         | None => []
                         end))));
       ("start", ENode s); ("end", ENode e)]
      :: edge_records rows' (S k)
  end.

(** The FollowRelationship that [create_follow_relationships] makes of a
    matched row. *)
Definition decoded (row : FollowRelationship.follow_dict * node * node)
    (rel : FollowRelationship.t) : Prop :=
  let '(follow, s, e) := row in
  exists props us ue,
    FollowRelationship.fd_properties follow = Some props
    /\ User.from_entity (node_props s) = Ok us
    /\ User.from_entity (node_props e) = Ok ue
    /\ rel = FollowRelationship.from_entity (store_props props) us ue.

(** The properties of both endpoints of a matched row decode. *)
Definition row_decodes (row : FollowRelationship.follow_dict * node * node)
    : Prop :=
  let '(follow, s, e) := row in
  FollowRelationship.fd_properties follow <> None
  /\ gender_decodes (node_props s) /\ gender_decodes (node_props e).


(** How many User nodes of the graph carry [v] as their [user_id]. *)
Definition match_count (g : graph) (v : value) : nat :=
  List.length (filter (matches_user_id v) (nodes g)).

(** The events of a batch write when nothing fails. *)
Definition batch_trace : list event := [SessionOpen; Run; SessionClose].

(** [g'] is [g] with nothing changed but FOLLOWS edges added, each between
    two nodes of [g]. *)
Definition only_new_follows (g g' : graph) : Prop :=
  nodes g' = nodes g
  /\ exists new,
       rels g' = rels g ++ new
       /\ Forall (fun r =>
                    rel_type r = "FOLLOWS"
                    /\ exists s e,
                         In s (nodes g) /\ In e (nodes g)
                         /\ has_label "User" s = true
                         /\ has_label "User" e = true
                         /\ rel_start r = node_id s /\ rel_end r = node_id e)
                 new.

(** [g'] is [g] with nothing changed but at most [n] nodes added, each
    labelled User. *)
Definition only_new_users (n : nat) (g g' : graph) : Prop :=
  rels g' = rels g
  /\ exists new,
       nodes g' = nodes g ++ new
       /\ (List.length new <= n)%nat
       /\ Forall (fun u => labels u = ["User"]) new.

(** * Entity mapping *)

Lemma string_eqb_neq (a b : string) : a <> b -> String.eqb a b = false.
Proof. intro H. now apply String.eqb_neq. Qed.

Lemma get_missing (d : dict) (key : string) :
  has_key d key = false -> get d key = VNone.
Proof.
  induction d as [|[k v] d IH]; simpl; [reflexivity|].
  destruct (String.eqb k key); simpl; [discriminate | exact IH].
Qed.

(** What [from_entity] makes of a property set whose gender decodes. *)
Lemma from_entity_ok (node : dict) :
  gender_decodes node ->
  exists b g,
    User.from_entity node
    = Ok (User.__init__ (get node "user_id") (get node "name") b g).
Proof.
  unfold gender_decodes, User.from_entity.
  intros [Hf | [g Hg]].
  - rewrite Hf. eauto.
  - rewrite Hg. destruct (truthy (get node "gender")); eauto.
Qed.

(** The only error of [from_entity] is the [ValueError] of the gender
    lookup. *)
Lemma from_entity_raise (node : dict) (e : exn) :
  User.from_entity node = Raise e ->
  e = ValueError /\ truthy (get node "gender") = true.
Proof.
  unfold User.from_entity.
  destruct (truthy (get node "gender")); [|discriminate].
  unfold Gender_of_value.
  destruct (get node "gender"); try (intro H; inversion H; auto).
  destruct (s =? "male"); [discriminate|].
  destruct (s =? "female"); [discriminate|].
  destruct (s =? "other"); [discriminate|].
  inversion H; auto.
Qed.

(** A User sent to the store and read back. *)
Lemma from_entity_store_props (p : User._Properties) :
  User.from_entity (store_props (User._Properties_to_dict p)) = Ok (stored p).
Proof.
  destruct p as [uid nm bd g].
  destruct uid, nm, bd, g as [[]|]; reflexivity.
Qed.

(** C1 (as amended): for every User whose four fields are populated,
    [User.from_entity] on the properties that [to_dict] produces yields the
    original User except that [birth_date] is None: [to_dict] emits the
    native date and [from_entity] converts only the driver's Date.  On the
    same properties with the birth date as the driver's Date, the form in
    which the store returns it, [from_entity] yields a User equal to the
    original.  The gender code decodes back to its member in both cases
    ("female" to FEMALE). *)
Theorem C1_round_trip (p : User._Properties) (d : date) (g : Gender) :
  populated p ->
  User.birth_date p = Some d ->
  User.gender p = Some g ->
  User.from_entity (User._Properties_to_dict p)
  = Ok (User.__init__ (User.user_id p) (User.name p) None (Some g))
  /\ User.from_entity
       [("user_id", User.user_id p); ("name", User.name p);
        ("birth_date", VNeoDate d); ("gender", VStr (Gender_value g))]
     = Ok (User.mk (Some p))
  /\ get (User._Properties_to_dict p) "gender" = VStr (Gender_value g)
  /\ Gender_of_value (VStr (Gender_value g)) = Ok g.
Proof.
  destruct p as [uid nm bd og].
  intros _ Hbd Hg. simpl in *. subst.
  destruct g; repeat split; reflexivity.
Qed.

Lemma C1_round_trip_witness :
  let p := User.mk_Properties (VStr "u-3") (VStr "Charlie")
             (Some (mk_date 2000 10 11)) (Some FEMALE) in
  populated p
  /\ User.from_entity (User._Properties_to_dict p)
     = Ok (User.__init__ (VStr "u-3") (VStr "Charlie") None (Some FEMALE))
  /\ User.from_entity
       [("user_id", VStr "u-3"); ("name", VStr "Charlie");
        ("birth_date", VNeoDate (mk_date 2000 10 11));
        ("gender", VStr "female")]
     = Ok (User.mk (Some p))
  /\ get (User._Properties_to_dict p) "gender" = VStr "female"
  /\ Gender_of_value (VStr "female") = Ok FEMALE.
Proof.
  intro p.
  assert (Hp : populated p).
  { unfold populated, p; simpl.
    repeat split; try (eexists; reflexivity); discriminate. }
  split; [exact Hp|].
  exact (C1_round_trip p (mk_date 2000 10 11) FEMALE Hp eq_refl eq_refl).
Defined.

(** C1 fails as stated: [from_entity] on the output of [to_dict] drops a
    populated birth date, since a native date is not a driver Date. *)
Lemma C1_direct_round_trip_fails :
  ~ (forall p, populated p ->
       User.from_entity (User._Properties_to_dict p) = Ok (User.mk (Some p))).
Proof.
  intro H.
  specialize (H (User.mk_Properties (VStr "u-3") (VStr "Charlie")
                   (Some (mk_date 2000 10 11)) (Some FEMALE))).
  assert (Hp : populated (User.mk_Properties (VStr "u-3") (VStr "Charlie")
                            (Some (mk_date 2000 10 11)) (Some FEMALE))).
  { unfold populated; simpl.
    repeat split; try (eexists; reflexivity); discriminate. }
  specialize (H Hp). discriminate H.
Qed.

(** C2 (as amended): for every property set whose gender value is a
    non-empty string that is none of "male", "female", "other",
    [User.from_entity] returns no User: it raises the [ValueError] of the
    [Gender] lookup (the code defines no error class of its own). *)
Theorem C2_unknown_gender_raises (node : dict) (code : string) :
  get node "gender" = VStr code ->
  code <> "" ->
  ~ In code gender_codes ->
  User.from_entity node = Raise ValueError.
Proof.
  intros Hg Hne Hnot.
  unfold User.from_entity. rewrite Hg. simpl.
  rewrite (string_eqb_neq code "" Hne). simpl.
  unfold gender_codes in Hnot. simpl in Hnot.
  rewrite !string_eqb_neq; [reflexivity | | |]; intro; subst; apply Hnot; auto.
Qed.

Lemma C2_unknown_gender_raises_witness :
  User.from_entity [("user_id", VStr "u-1"); ("name", VStr "Alice");
                    ("gender", VStr "unknown")]
  = Raise ValueError.
Proof.
  apply (C2_unknown_gender_raises _ "unknown").
  - reflexivity.
  - discriminate.
  - unfold gender_codes; simpl. intros [H|[H|[H|[]]]]; discriminate H.
Defined.

(** C2 fails as stated: the empty string is a string outside the three
    codes, and [from_entity] returns a User for it. *)
Lemma C2_empty_gender_returns :
  ~ (forall node code,
       get node "gender" = VStr code -> ~ In code gender_codes ->
       exists e, User.from_entity node = Raise e).
Proof.
  intro H.
  destruct (H [("user_id", VStr "u-1"); ("name", VStr "Alice");
               ("gender", VStr "")] "") as [e He].
  - reflexivity.
  - unfold gender_codes; simpl. intros [C|[C|[C|[]]]]; discriminate C.
  - discriminate He.
Qed.

(** C3 (as amended): for every property set, a required field ([user_id],
    [name], [relationship_id], [since]) that is missing raises no error:
    [User.from_entity], when the gender decodes, and
    [FollowRelationship.from_entity] return an object that holds whatever
    [get] gave for the field, which is None for a missing one. *)
Theorem C3_missing_required_field_becomes_None
    (node relationship : dict) (start_node end_node : User.t) :
  gender_decodes node ->
  (exists p, User.from_entity node = Ok (User.mk (Some p))
     /\ User.user_id p = get node "user_id"
     /\ User.name p = get node "name"
     /\ (has_key node "user_id" = false -> User.user_id p = VNone)
     /\ (has_key node "name" = false -> User.name p = VNone))
  /\ (exists q,
        FollowRelationship.properties
          (FollowRelationship.from_entity relationship start_node end_node)
        = Some q
        /\ FollowRelationship.relationship_id q
           = get relationship "relationship_id"
        /\ FollowRelationship.since q = get relationship "since"
        /\ (has_key relationship "relationship_id" = false ->
            FollowRelationship.relationship_id q = VNone)
        /\ (has_key relationship "since" = false ->
            FollowRelationship.since q = VNone)).
Proof.
  intro Hg. split.
  - destruct (from_entity_ok node Hg) as [b [g H]].
    eexists. split; [exact H|]. simpl.
    repeat split; auto using get_missing.
  - eexists. split; [reflexivity|]. simpl.
    repeat split; auto using get_missing.
Qed.

Lemma C3_missing_required_field_becomes_None_witness :
  let node : dict := [("birth_date", VNeoDate (mk_date 1990 1 2))] in
  let relationship : dict := [("relationship_id", VStr "r-1")] in
  let a := User.__init__ (VStr "u-1") (VStr "Alice") None None in
  let b := User.__init__ (VStr "u-2") (VStr "Bob") None None in
  gender_decodes node
  /\ (exists p, User.from_entity node = Ok (User.mk (Some p))
        /\ User.user_id p = VNone /\ User.name p = VNone
        /\ (has_key node "user_id" = false -> User.user_id p = VNone)
        /\ (has_key node "name" = false -> User.name p = VNone))
  /\ (exists q,
        FollowRelationship.properties
          (FollowRelationship.from_entity relationship a b) = Some q
        /\ FollowRelationship.relationship_id q = VStr "r-1"
        /\ FollowRelationship.since q = VNone
        /\ (has_key relationship "relationship_id" = false ->
            FollowRelationship.relationship_id q = VNone)
        /\ (has_key relationship "since" = false ->
            FollowRelationship.since q = VNone)).
Proof.
  intros node relationship a b.
  assert (Hg : gender_decodes node) by (left; reflexivity).
  split; [exact Hg|].
  exact (C3_missing_required_field_becomes_None node relationship a b Hg).
Defined.

(** C3 fails as stated: a property set without [user_id] and [name] is
    turned into a User, no error is raised. *)
Lemma C3_missing_field_no_error :
  ~ (forall node,
       has_key node "user_id" = false \/ has_key node "name" = false ->
       exists e, User.from_entity node = Raise e).
Proof.
  intro H. destruct (H [] (or_introl eq_refl)) as [e He]. discriminate He.
Qed.

(** C8: for every User whose [birth_date] and [gender] are unset,
    [to_dict] carries None under both keys, and [User.from_entity] on that
    dictionary returns, without error, a User equal to the original, both
    fields None. *)
Theorem C8_round_trip_unset (u : User.t) (p : User._Properties) :
  User.properties u = Some p ->
  User.birth_date p = None ->
  User.gender p = None ->
  exists d,
    User.to_dict u = Some d
    /\ get d "birth_date" = VNone /\ get d "gender" = VNone
    /\ User.from_entity d = Ok u.
Proof.
  destruct u as [[q|]]; simpl; intros Hp Hb Hg; [|discriminate].
  injection Hp as ->. destruct p as [uid nm bd g]. simpl in *. subst.
  eexists. split; [reflexivity|].
  repeat split.
Qed.

Lemma C8_round_trip_unset_witness :
  exists d,
    User.to_dict (User.__init__ (VStr "u-1") (VStr "Alice") None None) = Some d
    /\ get d "birth_date" = VNone /\ get d "gender" = VNone
    /\ User.from_entity d
       = Ok (User.__init__ (VStr "u-1") (VStr "Alice") None None).
Proof.
  exact (C8_round_trip_unset
           (User.__init__ (VStr "u-1") (VStr "Alice") None None)
           (User.mk_Properties (VStr "u-1") (VStr "Alice") None None)
           eq_refl eq_refl eq_refl).
Defined.

(** C9: for every property set whose gender value is the empty string,
    [User.from_entity] raises nothing and returns a User with gender None:
    the decode branches on the truthiness of the value. *)
Theorem C9_empty_gender_is_None (node : dict) :
  get node "gender" = VStr "" ->
  truthy (get node "gender") = false
  /\ exists b,
       User.from_entity node
       = Ok (User.__init__ (get node "user_id") (get node "name") b None).
Proof.
  intro Hg. unfold User.from_entity. rewrite Hg. simpl.
  split; [reflexivity | eauto].
Qed.

Lemma C9_empty_gender_is_None_witness :
  let node : dict := [("user_id", VStr "u-1"); ("name", VStr "Alice");
                      ("gender", VStr "")] in
  get node "gender" = VStr ""
  /\ truthy (get node "gender") = false
  /\ exists b,
       User.from_entity node
       = Ok (User.__init__ (VStr "u-1") (VStr "Alice") b None).
Proof.
  intro node. split; [reflexivity|].
  exact (C9_empty_gender_is_None node eq_refl).
Defined.

Lemma constructed_properties (u : User.t) :
  constructed u -> exists p, User.properties u = Some p.
Proof.
  intros [uid nm bd g | node v H].
  - simpl. eauto.
  - unfold User.from_entity in H.
    destruct (truthy (get node "gender")).
    + destruct (Gender_of_value (get node "gender")); [|discriminate].
      injection H as <-. simpl. eauto.
    + injection H as <-. simpl. eauto.
Qed.

(** C10: every User made by [User.__init__] or by [User.from_entity] has
    a [properties] that is not None; [User.to_dict] therefore never takes
    its None branch for it, and [FollowRelationship.to_dict] over two such
    Users reads both [user_id]s without raising. *)
Theorem C10_properties_never_None (u v : User.t)
    (q : option FollowRelationship._Properties) :
  constructed u -> constructed v ->
  User.properties u <> None
  /\ (exists p, User.properties u = Some p
        /\ User.to_dict u = Some (User._Properties_to_dict p))
  /\ (exists d, FollowRelationship.to_dict (FollowRelationship.mk u v q) = Ok d).
Proof.
  intros Hu Hv.
  destruct (constructed_properties u Hu) as [p Hp].
  destruct (constructed_properties v Hv) as [p' Hp'].
  split; [rewrite Hp; discriminate|].
  split.
  - exists p. split; [exact Hp|]. unfold User.to_dict. now rewrite Hp.
  - unfold FollowRelationship.to_dict, User.properties_user_id. simpl.
    rewrite Hp, Hp'. eauto.
Qed.

Lemma C10_properties_never_None_witness :
  let u := User.__init__ (VStr "u-1") (VStr "Alice") None None in
  let v := User.mk (Some (User.mk_Properties (VStr "u-2") (VStr "Bob") None
                            (Some MALE))) in
  User.properties u <> None
  /\ (exists p, User.properties u = Some p
        /\ User.to_dict u = Some (User._Properties_to_dict p))
  /\ (exists d,
        FollowRelationship.to_dict (FollowRelationship.mk u v None) = Ok d).
Proof.
  intros u v.
  exact (C10_properties_never_None u v None
           (by_init _ _ _ _)
           (by_from_entity
              [("user_id", VStr "u-2"); ("name", VStr "Bob");
               ("gender", VStr "male")] v eq_refl)).
Defined.

(** * Sessions and drivers *)

Lemma count_app (ev : event) (t s : list event) :
  count ev (t ++ s) = (count ev t + count ev s)%nat.
Proof. unfold count. now rewrite filter_app, length_app. Qed.

Lemma live_sessions_app (t s : list event) :
  live_sessions (t ++ s) = (live_sessions t + live_sessions s)%Z.
Proof. unfold live_sessions. rewrite !count_app. lia. Qed.

Lemma live_drivers_app (t s : list event) :
  live_drivers (t ++ s) = (live_drivers t + live_drivers s)%Z.
Proof. unfold live_drivers. rewrite !count_app. lia. Qed.

Lemma neutral_nil (n : nat) : neutral n [].
Proof. unfold neutral. cbn. repeat split; lia. Qed.

Lemma neutral_app (n k : nat) (s s' : list event) :
  neutral n s -> neutral k s' -> neutral (n + k) (s ++ s').
Proof.
  unfold neutral. intros [H1 [H2 H3]] [H1' [H2' H3']].
  rewrite live_sessions_app, live_drivers_app, count_app.
  repeat split; lia.
Qed.

Lemma neutral_le (n k : nat) (s : list event) :
  (n <= k)%nat -> neutral n s -> neutral k s.
Proof. unfold neutral. intros Hle [H1 [H2 H3]]. repeat split; auto; lia. Qed.

Lemma scoped_refl (n : nat) (t : list event) : scoped n t t.
Proof. exists []. split; [now rewrite app_nil_r | apply neutral_nil]. Qed.

Lemma scoped_trans (n k : nat) (t t' t'' : list event) :
  scoped n t t' -> scoped k t' t'' -> scoped (n + k) t t''.
Proof.
  intros [s [-> Hs]] [s' [-> Hs']].
  exists (s ++ s'). split; [now rewrite app_assoc | now apply neutral_app].
Qed.

Lemma scoped_le (n k : nat) (t t' : list event) :
  (n <= k)%nat -> scoped n t t' -> scoped k t t'.
Proof. intros Hle [s [-> Hs]]. exists s. eauto using neutral_le. Qed.

Lemma scoped_plain (t : list event) (ev : event) :
  plain ev -> scoped 0 t (t ++ [ev]).
Proof.
  intro H. exists [ev]. split; [reflexivity|].
  destruct H as [-> | [-> | ->]]; unfold neutral; cbn; repeat split; lia.
Qed.

Lemma keeps_scope_le {A} (n k : nat) (m : M A) :
  (n <= k)%nat -> keeps_scope n m -> keeps_scope k m.
Proof. intros Hle H w. eauto using scoped_le. Qed.

Lemma keeps_scope_ret {A} (a : A) : keeps_scope 0 (ret a).
Proof. intro w. apply scoped_refl. Qed.

Lemma keeps_scope_raise {A} (e : exn) : keeps_scope 0 (@raise A e).
Proof. intro w. apply scoped_refl. Qed.

Lemma keeps_scope_lift {A} (r : result A) : keeps_scope 0 (lift r).
Proof. intro w. apply scoped_refl. Qed.

Lemma keeps_scope_index {A} (xs : list A) (i : nat) :
  keeps_scope 0 (index xs i).
Proof.
  unfold index. destruct (nth_error xs i);
    [apply keeps_scope_ret | apply keeps_scope_raise].
Qed.

Lemma keeps_scope_log (ev : event) : plain ev -> keeps_scope 0 (log ev).
Proof. intros H w. simpl. now apply scoped_plain. Qed.

Lemma keeps_scope_driver_call (ev : event) :
  plain ev -> keeps_scope 0 (driver_call ev).
Proof.
  intros H w. unfold driver_call.
  destruct (faults w (calls w)); simpl;
    [apply scoped_refl | now apply scoped_plain].
Qed.

Lemma keeps_scope_bind {A B} (n k : nat) (m : M A) (f : A -> M B) :
  keeps_scope n m -> (forall a, keeps_scope k (f a)) ->
  keeps_scope (n + k) (bind m f).
Proof.
  intros Hm Hf w. unfold bind.
  specialize (Hm w). destruct (m w) as [[a|e] w']; simpl in *.
  - eapply scoped_trans; [exact Hm | apply Hf].
  - eapply scoped_le; [|exact Hm]. lia.
Qed.

Lemma keeps_scope_try_except {A} (n k : nat) (body : M A)
    (handler : exn -> M A) :
  keeps_scope n body -> (forall e, keeps_scope k (handler e)) ->
  keeps_scope (n + k) (try_except body handler).
Proof.
  intros Hb Hh w. unfold try_except.
  specialize (Hb w). destruct (body w) as [[a|e] w']; simpl in *.
  - eapply scoped_le; [|exact Hb]. lia.
  - eapply scoped_trans; [exact Hb | apply Hh].
Qed.

Lemma keeps_scope_for_append {A B} (f : A -> M B) (xs : list A) :
  (forall x, keeps_scope 0 (f x)) -> keeps_scope 0 (for_append f xs).
Proof.
  intro Hf. induction xs as [|x xs IH]; simpl.
  - apply keeps_scope_ret.
  - apply (keeps_scope_bind 0 0); [apply Hf|]. intro y.
    apply (keeps_scope_bind 0 0); [apply IH|]. intro ys.
    apply keeps_scope_ret.
Qed.

Lemma keeps_scope_Session_run (session : Session) (q : query) :
  keeps_scope 0 (Session_run session q).
Proof.
  unfold Session_run.
  apply (keeps_scope_bind 0 0).
  - apply keeps_scope_driver_call. left; reflexivity.
  - intros _ w. destruct (exec q (store w)) as [[rs g]|e]; simpl;
      apply scoped_refl.
Qed.

(** [with driver.session() as session]: whatever the body does, the
    session it opened is closed when the block is left. *)
Lemma keeps_scope_with_session {A} (driver : Driver) (body : Session -> M A) :
  (forall session, keeps_scope 0 (body session)) ->
  keeps_scope 1 (with_ (Driver_session driver) Session_close body).
Proof.
  intros Hb w. unfold with_, Driver_session, bind, driver_call, ret.
  destruct (faults w (calls w)); simpl; [apply scoped_refl|].
  match goal with |- context [body ?s ?w1] =>
    specialize (Hb s w1); destruct (body s w1) as [res w2] end.
  simpl in *. destruct Hb as [s [-> [H1 [H2 H3]]]].
  exists ([SessionOpen] ++ s ++ [SessionClose]).
  split; [now rewrite <- !app_assoc|].
  unfold neutral.
  rewrite !live_sessions_app, !live_drivers_app, !count_app, H1, H2. cbn.
  repeat split; lia.
Qed.

(** [with GraphDatabase.driver(uri) as driver]: likewise for the driver. *)
Lemma keeps_scope_with_driver {A} (n : nat) (uri : string)
    (body : Driver -> M A) :
  (forall driver, keeps_scope n (body driver)) ->
  keeps_scope n (with_ (GraphDatabase_driver uri) Driver_close body).
Proof.
  intros Hb w. unfold with_, GraphDatabase_driver, bind, driver_call, ret.
  destruct (faults w (calls w)); simpl; [apply scoped_refl|].
  match goal with |- context [body ?s ?w1] =>
    specialize (Hb s w1); destruct (body s w1) as [res w2] end.
  simpl in *. destruct Hb as [s [-> [H1 [H2 H3]]]].
  exists ([DriverOpen] ++ s ++ [DriverClose]).
  split; [now rewrite <- !app_assoc|].
  unfold neutral.
  rewrite !live_sessions_app, !live_drivers_app, !count_app, H1, H2. cbn.
  repeat split; lia.
Qed.

Lemma keeps_scope_create_user_nodes (driver : Driver) (users : list User.t) :
  keeps_scope 1 (create_user_nodes driver users).
Proof.
  apply keeps_scope_with_session. intro session.
  apply (keeps_scope_bind 0 0); [apply keeps_scope_Session_run|]. intro rs.
  apply keeps_scope_for_append. intro r.
  apply (keeps_scope_bind 0 0); [apply keeps_scope_lift|]. intro n.
  apply keeps_scope_lift.
Qed.

Lemma keeps_scope_create_follow_relationships (driver : Driver)
    (follow_relationships : list FollowRelationship.t) :
  keeps_scope 1 (create_follow_relationships driver follow_relationships).
Proof.
  apply keeps_scope_with_session. intro session.
  apply (keeps_scope_bind 0 0); [apply keeps_scope_lift|]. intro ds.
  apply (keeps_scope_bind 0 0); [apply keeps_scope_Session_run|]. intro rs.
  apply keeps_scope_for_append. intro r. unfold decode_follow.
  repeat (apply (keeps_scope_bind 0 0); [apply keeps_scope_lift|]; intro).
  apply keeps_scope_ret.
Qed.

Lemma keeps_scope_users_main (uuid4 : nat -> string) :
  keeps_scope 2 (users_py.main uuid4).
Proof.
  unfold users_py.main.
  apply (keeps_scope_try_except 2 0);
    [|intro e; apply keeps_scope_log; right; right; reflexivity].
  apply keeps_scope_with_driver. intro driver.
  apply (keeps_scope_bind 1 1); [apply keeps_scope_create_user_nodes|].
  intro created_users.
  repeat (apply (keeps_scope_bind 0 1); [apply keeps_scope_index|]; intro).
  apply (keeps_scope_bind 1 0);
    [apply keeps_scope_create_follow_relationships|].
  intro. apply keeps_scope_ret.
Qed.

(** [main] of users.py catches every exception. *)
Lemma users_main_returns (uuid4 : nat -> string) (w : world) :
  fst (users_py.main uuid4 w) = Ok tt.
Proof.
  unfold users_py.main, try_except.
  match goal with |- context [with_ ?a ?b ?c w] =>
    destruct (with_ a b c w) as [[[]|e] w'] end; reflexivity.
Qed.

(** [main] of basic.py when no call fails. *)
Lemma basic_main_no_faults (w : world) :
  no_faults w ->
  fst (basic_py.main w) = Ok tt
  /\ trace (snd (basic_py.main w)) = trace w ++ basic_trace.
Proof.
  intro H.
  unfold basic_py.main, GraphDatabase_driver, Driver_session, Session_run,
    Result_consume, Session_close, Driver_close, print, log, bind,
    driver_call, ret.
  repeat (rewrite H; simpl).
  split; [reflexivity|]. unfold basic_trace.
  now rewrite <- !app_assoc.
Qed.

Lemma scoped_live (n : nat) (t t' : list event) :
  scoped n t t' ->
  live_sessions t' = live_sessions t /\ live_drivers t' = live_drivers t
  /\ (count SessionOpen t' <= count SessionOpen t + n)%nat.
Proof.
  intros [s [-> [H1 [H2 H3]]]].
  rewrite live_sessions_app, live_drivers_app, count_app.
  repeat split; lia.
Qed.

(** C4 (as amended): the functions of users.py acquire their resources
    through scoped acquisition and release them on every exit path, error
    paths included: [create_user_nodes] and [create_follow_relationships]
    each open at most one session and leave it closed, and [main], which
    runs both under one driver and catches every exception, leaves no
    session and no driver open.  [main] of basic.py opens one driver and
    one session without scoped acquisition and closes both when no call
    fails. *)
Theorem C4_scoped_release (uuid4 : nat -> string) (driver : Driver)
    (users : list User.t) (follow_relationships : list FollowRelationship.t)
    (w : world) :
  (fst (users_py.main uuid4 w) = Ok tt
   /\ scoped 2 (trace w) (trace (snd (users_py.main uuid4 w)))
   /\ (released (trace w) -> released (trace (snd (users_py.main uuid4 w)))))
  /\ scoped 1 (trace w) (trace (snd (create_user_nodes driver users w)))
  /\ scoped 1 (trace w)
       (trace (snd (create_follow_relationships driver follow_relationships w)))
  /\ (no_faults w ->
      fst (basic_py.main w) = Ok tt
      /\ trace (snd (basic_py.main w)) = trace w ++ basic_trace
      /\ (released (trace w) -> released (trace (snd (basic_py.main w))))).
Proof.
  repeat split.
  - apply users_main_returns.
  - apply keeps_scope_users_main.
  - destruct (scoped_live _ _ _ (keeps_scope_users_main uuid4 w)) as [-> _].
    apply H.
  - destruct (scoped_live _ _ _ (keeps_scope_users_main uuid4 w))
      as [_ [-> _]].
    apply H.
  - apply keeps_scope_create_user_nodes.
  - apply keeps_scope_create_follow_relationships.
  - now apply basic_main_no_faults.
  - now apply basic_main_no_faults.
  - destruct (basic_main_no_faults w H) as [_ ->].
    rewrite live_sessions_app. destruct H0 as [-> _]. reflexivity.
  - destruct (basic_main_no_faults w H) as [_ ->].
    rewrite live_drivers_app. destruct H0 as [_ ->]. reflexivity.
Qed.

Lemma C4_scoped_release_witness :
  let uuid4 := fun k : nat => String (Ascii.ascii_of_nat (65 + k)) "" in
  let w := fresh (fun _ => false) in
  no_faults w
  /\ trace (snd (users_py.main uuid4 w))
     = [DriverOpen; SessionOpen; Run; SessionClose; SessionOpen; Run;
        SessionClose; DriverClose]
  /\ fst (basic_py.main w) = Ok tt
  /\ trace (snd (basic_py.main w)) = basic_trace
  /\ released (trace (snd (basic_py.main w))).
Proof.
  intros uuid4 w.
  assert (Hw : no_faults w) by (intro k; reflexivity).
  destruct (C4_scoped_release uuid4 (mk_driver "bolt://neo4j:7687") [] [] w)
    as [_ [_ [_ Hb]]].
  destruct (Hb Hw) as [H1 [H2 H3]].
  repeat split; try assumption; try reflexivity; apply H3; split; reflexivity.
Defined.

(** C4 fails as stated: when the first [session.run] of basic.py raises,
    [main] exits with the session and the driver still open; and a run of
    [main] of users.py in which nothing fails opens two sessions, one per
    batch write. *)
Lemma C4_basic_main_leaks :
  (let w := fresh (fun k => Nat.eqb k 2) in
   fst (basic_py.main w) = Raise DriverError
   /\ trace (snd (basic_py.main w)) = [DriverOpen; SessionOpen]
   /\ live_sessions (trace (snd (basic_py.main w))) = 1%Z
   /\ live_drivers (trace (snd (basic_py.main w))) = 1%Z
   /\ ~ released (trace (snd (basic_py.main w))))
  /\ (let w := fresh (fun _ => false) in
      count SessionOpen
        (trace (snd (users_py.main
                       (fun k => String (Ascii.ascii_of_nat (65 + k)) "") w)))
      = 2%nat).
Proof.
  split; [|reflexivity].
  intro w. repeat split. intros [H _]. discriminate H.
Qed.

(** * Batch writes *)

Lemma create_users_spec (ds : list dict) (g : graph) :
  create_users (map Some ds) g
  = Ok (map (fun n => [("u", ENode n)]) (user_nodes ds (next_id g)),
        mk_graph (nodes g ++ user_nodes ds (next_id g)) (rels g)
                 (next_id g + List.length ds)).
Proof.
  revert g. induction ds as [|d ds IH]; intro g; simpl.
  - rewrite app_nil_r, Nat.add_0_r. now destruct g.
  - rewrite IH. simpl. rewrite <- app_assoc. simpl.
    now rewrite Nat.add_succ_r.
Qed.

(** The loop of [create_user_nodes] over the records of the nodes it has
    just created. *)
Lemma for_append_users (ps : list User._Properties) (k : nat) (w : world) :
  for_append
    (fun record =>
       user_node <- lift (record_get record "u") ;;
       lift (User.from_entity (entity_dict user_node)))
    (map (fun n => [("u", ENode n)])
         (user_nodes (map User._Properties_to_dict ps) k)) w
  = (Ok (map stored ps), w).
Proof.
  revert k. induction ps as [|p ps IH]; intro k; simpl; [reflexivity|].
  unfold bind at 1. unfold bind at 1. unfold lift at 1. simpl.
  unfold lift at 1. rewrite from_entity_store_props.
  unfold bind at 1. rewrite IH. reflexivity.
Qed.

(** [create_user_nodes] when no call fails: one node per User, one User
    per node, in the order of the input. *)
Lemma create_user_nodes_no_faults (driver : Driver)
    (ps : list User._Properties) (w : world) :
  no_faults w ->
  create_user_nodes driver (map (fun p => User.mk (Some p)) ps) w
  = (Ok (map stored ps),
     mk_world
       (mk_graph
          (nodes (store w)
           ++ user_nodes (map User._Properties_to_dict ps) (next_id (store w)))
          (rels (store w)) (next_id (store w) + List.length ps))
       (trace w ++ [SessionOpen; Run; SessionClose])
       (faults w) (S (S (calls w)))).
Proof.
  intro H.
  unfold create_user_nodes, with_, Driver_session, Session_run, Session_close,
    log, bind at 1 2 3, driver_call, ret.
  rewrite H. simpl. rewrite H. simpl.
  rewrite map_map. unfold User.to_dict. simpl.
  rewrite <- (map_map User._Properties_to_dict Some).
  rewrite create_users_spec. rewrite for_append_users. simpl.
  rewrite length_map, <- !app_assoc. reflexivity.
Qed.

Lemma properties_user_id_Ok (u : User.t) (v : value) :
  User.properties_user_id u = Ok v ->
  exists p, u = User.mk (Some p) /\ User.user_id p = v.
Proof.
  destruct u as [[p|]]; unfold User.properties_user_id; simpl; intro H;
    [|discriminate].
  injection H as <-. eauto.
Qed.

(** C6: for every list of three Users with pairwise-distinct [user_id]s,
    [create_user_nodes], when no call into the driver fails, returns
    exactly three Users, and the [user_id]s of the returned Users are
    those of the input, as sets.  The Users returned are reconstructed:
    the call opens a session, runs the query and closes the session; the
    store gains exactly three nodes labelled User, one carrying the
    properties of each input User, and each returned User is what
    [User.from_entity] makes of one of these nodes. *)
Theorem C6_create_three_users (driver : Driver) (w : world)
    (u1 u2 u3 : User.t) (s1 s2 s3 : string) :
  no_faults w ->
  User.properties_user_id u1 = Ok (VStr s1) ->
  User.properties_user_id u2 = Ok (VStr s2) ->
  User.properties_user_id u3 = Ok (VStr s3) ->
  NoDup [s1; s2; s3] ->
  exists out new,
    fst (create_user_nodes driver [u1; u2; u3] w) = Ok out
    /\ List.length out = 3%nat
    /\ map User.properties_user_id out
       = [Ok (VStr s1); Ok (VStr s2); Ok (VStr s3)]
    /\ (forall v, In (Ok v) (map User.properties_user_id out)
                  <-> In v [VStr s1; VStr s2; VStr s3])
    /\ nodes (store (snd (create_user_nodes driver [u1; u2; u3] w)))
       = nodes (store w) ++ new
    /\ List.length new = 3%nat
    /\ Forall2 (fun n u => labels n = ["User"]
                           /\ User.from_entity (node_props n) = Ok u)
               new out
    /\ (forall u p, In u [u1; u2; u3] -> User.properties u = Some p ->
          exists n, In n new
                    /\ node_props n = store_props (User._Properties_to_dict p))
    /\ trace (snd (create_user_nodes driver [u1; u2; u3] w))
       = trace w ++ [SessionOpen; Run; SessionClose].
Proof.
  intros Hw H1 H2 H3 _.
  destruct (properties_user_id_Ok _ _ H1) as [p1 [-> E1]].
  destruct (properties_user_id_Ok _ _ H2) as [p2 [-> E2]].
  destruct (properties_user_id_Ok _ _ H3) as [p3 [-> E3]].
  change [User.mk (Some p1); User.mk (Some p2); User.mk (Some p3)]
    with (map (fun p => User.mk (Some p)) [p1; p2; p3]).
  rewrite (create_user_nodes_no_faults driver [p1; p2; p3] w Hw).
  eexists. eexists. split; [reflexivity|].
  assert (Hids : map User.properties_user_id (map stored [p1; p2; p3])
                 = [Ok (VStr s1); Ok (VStr s2); Ok (VStr s3)]).
  { simpl. unfold User.properties_user_id. simpl. now rewrite E1, E2, E3. }
  split; [reflexivity|]. split; [exact Hids|].
  split.
  { intro v. rewrite Hids. simpl. split.
    - intros [H|[H|[H|[]]]]; injection H as <-; auto.
    - intros [<-|[<-|[<-|[]]]]; auto. }
  cbn [snd store nodes trace map user_nodes].
  split; [reflexivity|]. split; [reflexivity|]. split.
  { repeat constructor; simpl; apply from_entity_store_props. }
  split; [|reflexivity].
  intros u p Hin Hp. simpl in Hin.
  destruct Hin as [<-|[<-|[<-|[]]]]; simpl in Hp; injection Hp as <-;
    eexists.
  - split; [left; reflexivity | reflexivity].
  - split; [right; left; reflexivity | reflexivity].
  - split; [right; right; left; reflexivity | reflexivity].
Qed.

Lemma C6_create_three_users_witness :
  let u1 := User.__init__ (VStr "u-1") (VStr "Alice") None None in
  let u2 := User.__init__ (VStr "u-2") (VStr "Bob")
              (Some (mk_date 1990 1 2)) None in
  let u3 := User.__init__ (VStr "u-3") (VStr "Charlie")
              (Some (mk_date 2000 10 11)) (Some FEMALE) in
  let driver := mk_driver "bolt://neo4j:7687" in
  let w := fresh (fun _ => false) in
  exists out new,
    fst (create_user_nodes driver [u1; u2; u3] w) = Ok out
    /\ List.length out = 3%nat
    /\ map User.properties_user_id out
       = [Ok (VStr "u-1"); Ok (VStr "u-2"); Ok (VStr "u-3")]
    /\ (forall v, In (Ok v) (map User.properties_user_id out)
                  <-> In v [VStr "u-1"; VStr "u-2"; VStr "u-3"])
    /\ nodes (store (snd (create_user_nodes driver [u1; u2; u3] w)))
       = nodes (store w) ++ new
    /\ List.length new = 3%nat
    /\ Forall2 (fun n u => labels n = ["User"]
                           /\ User.from_entity (node_props n) = Ok u)
               new out
    /\ (forall u p, In u [u1; u2; u3] -> User.properties u = Some p ->
          exists n, In n new
                    /\ node_props n = store_props (User._Properties_to_dict p))
    /\ trace (snd (create_user_nodes driver [u1; u2; u3] w))
       = trace w ++ [SessionOpen; Run; SessionClose].
Proof.
  intros u1 u2 u3 driver w.
  apply (C6_create_three_users driver w u1 u2 u3 "u-1" "u-2" "u-3").
  - intro k. reflexivity.
  - reflexivity.
  - reflexivity.
  - reflexivity.
  - repeat constructor; simpl; intuition discriminate.
Defined.

Lemma create_edges_spec
    (rows : list (FollowRelationship.follow_dict * node * node)) (g : graph) :
  Forall row_decodes rows ->
  exists g', create_edges rows g = Ok (edge_records rows (next_id g), g').
Proof.
  intro H. revert g. induction H as [|[[follow s] e] rows Hrow _ IH];
    intro g; simpl; [eauto|].
  destruct Hrow as [Hp _].
  destruct (FollowRelationship.fd_properties follow) as [props|];
    [|contradiction].
  destruct (IH (mk_graph (nodes g)
                  (rels g ++ [mk_rel (next_id g) "FOLLOWS" (node_id s)
                                     (node_id e) (store_props props)])
                  (S (next_id g)))) as [g' ->].
  simpl. eauto.
Qed.

Lemma decode_follow_record (f : relationship) (s e : node) (us ue : User.t)
    (w : world) :
  User.from_entity (node_props s) = Ok us ->
  User.from_entity (node_props e) = Ok ue ->
  decode_follow [("f", ERel f); ("start", ENode s); ("end", ENode e)] w
  = (Ok (FollowRelationship.from_entity (rel_props f) us ue), w).
Proof.
  intros Es Ee. unfold decode_follow, bind, lift, ret. simpl.
  now rewrite Es, Ee.
Qed.

(** The loop of [create_follow_relationships] over the records of the
    edges just created. *)
Lemma for_append_follows
    (rows : list (FollowRelationship.follow_dict * node * node)) (k : nat)
    (w : world) :
  Forall row_decodes rows ->
  exists out,
    for_append decode_follow (edge_records rows k) w = (Ok out, w)
    /\ Forall2 decoded rows out.
Proof.
  intro H. revert k. induction H as [|[[follow s] e] rows Hrow _ IH];
    intro k; cbn [edge_records for_append].
  - exists []. split; [reflexivity | constructor].
  - destruct Hrow as [Hp [Hs He]].
    destruct (FollowRelationship.fd_properties follow) as [props|] eqn:Ep;
      [|contradiction].
    destruct (from_entity_ok _ Hs) as [bs [gs Es]].
    destruct (from_entity_ok _ He) as [be [ge Ee]].
    destruct (IH (S k)) as [out [Eout Hout]].
    eexists. split.
    + unfold bind at 1. rewrite (decode_follow_record _ _ _ _ _ _ Es Ee).
      unfold bind at 1. rewrite Eout. reflexivity.
    + constructor; [|exact Hout].
      unfold decoded. rewrite Ep. simpl. eauto 10.
Qed.

(** [create_follow_relationships] when no call fails and the endpoints of
    the matched rows decode: one FollowRelationship per matched row. *)
Lemma create_follow_relationships_no_faults (driver : Driver)
    (follow_relationships : list FollowRelationship.t)
    (ds : list FollowRelationship.follow_dict) (w : world) :
  no_faults w ->
  to_dicts follow_relationships = Ok ds ->
  Forall row_decodes (flat_map (match_rows (nodes (store w))) ds) ->
  exists out,
    fst (create_follow_relationships driver follow_relationships w) = Ok out
    /\ Forall2 decoded (flat_map (match_rows (nodes (store w))) ds) out.
Proof.
  intros H Hds Hrows.
  unfold create_follow_relationships, with_, Driver_session, Session_run,
    Session_close, log, bind at 1 2 3 4, driver_call, ret, lift.
  rewrite H. simpl. rewrite Hds. rewrite H. simpl.
  destruct (create_edges_spec _ (store w) Hrows) as [g' ->].
  match goal with |- context [for_append decode_follow ?rs ?w1] =>
    destruct (for_append_follows _ (next_id (store w)) w1 Hrows)
      as [out [-> Hout]] end.
  simpl. eauto.
Qed.

Lemma flat_map_length_le {A B} (f : A -> list B) (l : list A) :
  (forall x, In x l -> (List.length (f x) <= 1)%nat) ->
  (List.length (flat_map f l) <= List.length l)%nat.
Proof.
  induction l as [|a l IH]; simpl; intro H; [lia|].
  rewrite length_app.
  specialize (H a (or_introl eq_refl)) as Ha.
  assert (List.length (flat_map f l) <= List.length l)%nat
    by (apply IH; intros; apply H; now right).
  lia.
Qed.

Lemma flat_map_length_lt {A B} (f : A -> list B) (l : list A) (a : A) :
  (forall x, In x l -> (List.length (f x) <= 1)%nat) ->
  In a l -> f a = [] ->
  (List.length (flat_map f l) < List.length l)%nat.
Proof.
  induction l as [|b l IH]; simpl; intros H Hin Ha; [contradiction|].
  rewrite length_app.
  destruct Hin as [-> | Hin].
  - rewrite Ha. simpl.
    assert (List.length (flat_map f l) <= List.length l)%nat
      by (apply flat_map_length_le; intros; apply H; now right).
    lia.
  - specialize (H b (or_introl eq_refl)) as Hb.
    assert (List.length (flat_map f l) < List.length l)%nat
      by (apply IH; auto; intros; apply H; now right).
    lia.
Qed.

(** Under unique [user_id]s an entry matches at most one row. *)
Lemma match_rows_unique (g : graph) (d : FollowRelationship.follow_dict) :
  unique_user_ids g ->
  (List.length (match_rows (nodes g) d) <= 1)%nat.
Proof.
  intro H. unfold match_rows.
  pose proof (H (FollowRelationship.start_user_id d)) as Hs.
  pose proof (H (FollowRelationship.end_user_id d)) as He.
  destruct (filter (matches_user_id (FollowRelationship.start_user_id d))
              (nodes g)) as [|s [|s' l]]; simpl in *; try lia.
  rewrite app_nil_r, length_map. exact He.
Qed.

(** An entry one of whose endpoints matches no node yields no row. *)
Lemma match_rows_dangling (g : graph) (d : FollowRelationship.follow_dict) :
  never_created g (FollowRelationship.start_user_id d)
  \/ never_created g (FollowRelationship.end_user_id d) ->
  match_rows (nodes g) d = [].
Proof.
  unfold never_created, match_rows. intros [-> | ->]; [reflexivity|].
  simpl. induction (filter _ (nodes g)); simpl; auto.
Qed.

Lemma match_rows_decode (g : graph) (d : FollowRelationship.follow_dict) :
  decodable g -> FollowRelationship.fd_properties d <> None ->
  Forall row_decodes (match_rows (nodes g) d).
Proof.
  intros Hg Hd. apply Forall_forall. intros [[f s] e] Hin.
  unfold match_rows in Hin. apply in_flat_map in Hin.
  destruct Hin as [s' [Hs Hin]]. apply in_map_iff in Hin.
  destruct Hin as [e' [Heq He]]. injection Heq as <- <- <-.
  apply filter_In in Hs. apply filter_In in He.
  destruct Hs as [Hs Hms], He as [He Hme].
  unfold matches_user_id in Hms, Hme.
  apply andb_prop in Hms. destruct Hms as [Hms _].
  apply andb_prop in Hms. destruct Hms as [Hms _].
  apply andb_prop in Hme. destruct Hme as [Hme _].
  apply andb_prop in Hme. destruct Hme as [Hme _].
  repeat split; auto.
Qed.

(** The dictionaries of well-formed relationships. *)
Lemma to_dicts_well_formed (follow_relationships : list FollowRelationship.t) :
  Forall well_formed follow_relationships ->
  exists ds,
    to_dicts follow_relationships = Ok ds
    /\ Forall2 (fun rel d =>
                  FollowRelationship.to_dict rel = Ok d
                  /\ FollowRelationship.fd_properties d <> None)
               follow_relationships ds.
Proof.
  induction 1 as [|rel l Hrel _ [ds [IH1 IH2]]]; simpl.
  - exists []. split; [reflexivity | constructor].
  - destruct rel as [[[ps|]] [[pe|]] [q|]];
      destruct Hrel as [H1 [H2 H3]]; simpl in *; try contradiction.
    unfold FollowRelationship.to_dict. simpl. rewrite IH1.
    eexists. split; [reflexivity|].
    constructor; [|exact IH2]. split; [reflexivity|]. simpl. discriminate.
Qed.

Lemma to_dict_ids (rel : FollowRelationship.t)
    (d : FollowRelationship.follow_dict) :
  FollowRelationship.to_dict rel = Ok d ->
  User.properties_user_id (FollowRelationship.start_node rel)
  = Ok (FollowRelationship.start_user_id d)
  /\ User.properties_user_id (FollowRelationship.end_node rel)
     = Ok (FollowRelationship.end_user_id d).
Proof.
  unfold FollowRelationship.to_dict.
  destruct (User.properties_user_id (FollowRelationship.start_node rel));
    [|discriminate].
  destruct (User.properties_user_id (FollowRelationship.end_node rel));
    [|discriminate].
  intro H. injection H as <-. simpl. auto.
Qed.

Lemma Forall2_In_left {A B} (R : A -> B -> Prop) (l : list A) (l' : list B)
    (x : A) :
  Forall2 R l l' -> In x l -> exists y, In y l' /\ R x y.
Proof.
  induction 1 as [|a b l l' Hab _ IH]; intro Hin; [contradiction|].
  destruct Hin as [-> | Hin].
  - exists b. split; [now left | exact Hab].
  - destruct (IH Hin) as [y [H1 H2]]. exists y. split; [now right | exact H2].
Qed.

Lemma Forall2_Forall_right {A B} (R : A -> B -> Prop) (P : B -> Prop)
    (l : list A) (l' : list B) :
  Forall2 R l l' -> (forall a b, R a b -> P b) -> Forall P l'.
Proof. induction 1; intro HR; constructor; eauto. Qed.

(** The follow query goes through as soon as every entry carries its
    properties. *)
Lemma create_edges_props
    (rows : list (FollowRelationship.follow_dict * node * node)) (g : graph) :
  Forall (fun row => FollowRelationship.fd_properties (fst (fst row)) <> None)
         rows ->
  exists g', create_edges rows g = Ok (edge_records rows (next_id g), g').
Proof.
  intro H. revert g. induction H as [|[[follow s] e] rows Hp _ IH];
    intro g; simpl; [eauto|].
  simpl in Hp.
  destruct (FollowRelationship.fd_properties follow) as [props|];
    [|contradiction].
  destruct (IH (mk_graph (nodes g)
                  (rels g ++ [mk_rel (next_id g) "FOLLOWS" (node_id s)
                                     (node_id e) (store_props props)])
                  (S (next_id g)))) as [g' ->].
  simpl. eauto.
Qed.

Lemma match_rows_props (ns : list node)
    (ds : list FollowRelationship.follow_dict) :
  Forall (fun d => FollowRelationship.fd_properties d <> None) ds ->
  Forall (fun row => FollowRelationship.fd_properties (fst (fst row)) <> None)
         (flat_map (match_rows ns) ds).
Proof.
  intro H. apply Forall_forall. intros [[f s] e] Hin.
  apply in_flat_map in Hin. destruct Hin as [d [Hd Hin]].
  unfold match_rows in Hin. apply in_flat_map in Hin.
  destruct Hin as [s' [_ Hin]]. apply in_map_iff in Hin.
  destruct Hin as [e' [Heq _]]. injection Heq as <- <- <-.
  simpl. exact (proj1 (Forall_forall _ _) H d Hd).
Qed.

Lemma length_edge_records
    (rows : list (FollowRelationship.follow_dict * node * node)) (k : nat) :
  List.length (edge_records rows k) = List.length rows.
Proof.
  revert k. induction rows as [|[[f s] e] rows IH]; intro k; simpl;
    [reflexivity | now rewrite IH].
Qed.

(** The loop returns one element per record. *)
Lemma for_append_length {A B} (f : A -> M B) (xs : list A) (w : world)
    (out : list B) :
  fst (for_append f xs w) = Ok out -> List.length out = List.length xs.
Proof.
  revert w out. induction xs as [|x xs IH]; intros w out; simpl.
  - intro H. injection H as <-. reflexivity.
  - unfold bind at 1. destruct (f x w) as [[y|e] w1]; [|discriminate].
    unfold bind at 1.
    destruct (for_append f xs w1) as [[ys|e] w2] eqn:E; [|discriminate].
    simpl. intro H. injection H as <-. simpl. f_equal.
    apply (IH w1). now rewrite E.
Qed.

(** On the records of the follow query the loop can only raise the
    [ValueError] of [from_entity]. *)
Lemma for_append_follows_raise
    (rows : list (FollowRelationship.follow_dict * node * node)) (k : nat)
    (w : world) (err : exn) :
  fst (for_append decode_follow (edge_records rows k) w) = Raise err ->
  err = ValueError.
Proof.
  revert k w. induction rows as [|[[f s] e] rows IH]; intros k w;
    cbn [edge_records for_append]; [discriminate|].
  unfold bind at 1.
  match goal with |- context [decode_follow ?r w] =>
    destruct (decode_follow r w) as [[y|e1] w1] eqn:E end.
  - unfold bind at 1.
    destruct (for_append decode_follow (edge_records rows (S k)) w1)
      as [[ys|e2] w2] eqn:E2; [discriminate|].
    simpl. intro H. injection H as <-.
    apply (IH (S k) w1). now rewrite E2.
  - simpl. intro H. injection H as <-.
    unfold decode_follow, bind, lift, ret in E. simpl in E.
    destruct (User.from_entity (node_props s)) as [us|e3] eqn:Es.
    + destruct (User.from_entity (node_props e)) as [ue|e4] eqn:Ee;
        [discriminate|].
      injection E as <- _. now apply from_entity_raise in Ee.
    + injection E as <- _. now apply from_entity_raise in Es.
Qed.

(** What [create_follow_relationships] returns, when no call fails, is
    what its loop makes of the records of the matched rows. *)
Lemma create_follow_relationships_fst (driver : Driver)
    (follow_relationships : list FollowRelationship.t)
    (ds : list FollowRelationship.follow_dict) (w : world) :
  no_faults w ->
  to_dicts follow_relationships = Ok ds ->
  Forall (fun d => FollowRelationship.fd_properties d <> None) ds ->
  exists w1,
    fst (create_follow_relationships driver follow_relationships w)
    = fst (for_append decode_follow
             (edge_records (flat_map (match_rows (nodes (store w))) ds)
                           (next_id (store w)))
             w1).
Proof.
  intros H Hds Hp.
  unfold create_follow_relationships, with_, Driver_session, Session_run,
    Session_close, log, bind at 1 2 3 4, driver_call, ret, lift.
  rewrite H. simpl. rewrite Hds. rewrite H. simpl.
  destruct (create_edges_props _ (store w)
              (match_rows_props (nodes (store w)) ds Hp)) as [g' ->].
  match goal with |- context [for_append decode_follow ?rs ?w1] =>
    exists w1; destruct (for_append decode_follow rs w1) as [res w2] end.
  reflexivity.
Qed.

(** C5 (as amended): for every input list of
    [create_follow_relationships] that contains an entry one of whose
    endpoint [user_id]s was never created in the store, that entry
    contributes no row, and the returned list is empty when that entry is
    the only input; in a store where no two User nodes carry the same
    [user_id], the returned list is strictly shorter than the input list,
    so that the caller sees the partial failure by comparing lengths.  (The
    call returns a list unless [from_entity] raises its [ValueError] on a
    matched node; it does return one when the User nodes of the store
    decode.) *)
Theorem C5_dangling_entry_shortens_result (driver : Driver) (w : world)
    (follow_relationships : list FollowRelationship.t)
    (rel : FollowRelationship.t) :
  no_faults w ->
  Forall well_formed follow_relationships ->
  In rel follow_relationships ->
  dangling (store w) rel ->
  (exists d, FollowRelationship.to_dict rel = Ok d
             /\ match_rows (nodes (store w)) d = [])
  /\ (follow_relationships = [rel] ->
      fst (create_follow_relationships driver follow_relationships w) = Ok [])
  /\ (unique_user_ids (store w) ->
      (forall out,
         fst (create_follow_relationships driver follow_relationships w)
         = Ok out ->
         (List.length out < List.length follow_relationships)%nat)
      /\ ((exists out,
             fst (create_follow_relationships driver follow_relationships w)
             = Ok out)
          \/ fst (create_follow_relationships driver follow_relationships w)
             = Raise ValueError)
      /\ (decodable (store w) ->
          exists out,
            fst (create_follow_relationships driver follow_relationships w)
            = Ok out
            /\ (List.length out < List.length follow_relationships)%nat)).
Proof.
  intros Hw Hwf Hin [v [Hv Hnc]].
  destruct (to_dicts_well_formed _ Hwf) as [ds [Hds Hall]].
  destruct (Forall2_In_left _ _ _ _ Hall Hin) as [d [Hdin [Hd' _]]].
  assert (Hrows : match_rows (nodes (store w)) d = []).
  { apply match_rows_dangling.
    destruct (to_dict_ids _ _ Hd') as [Hs He].
    destruct Hv as [Hv | Hv].
    - left. rewrite Hv in Hs. injection Hs as <-. exact Hnc.
    - right. rewrite Hv in He. injection He as <-. exact Hnc. }
  assert (Hp : Forall (fun d0 => FollowRelationship.fd_properties d0 <> None)
                 ds).
  { apply (Forall2_Forall_right _ _ _ _ Hall). now intros r d0 [_ Hp]. }
  destruct (create_follow_relationships_fst driver _ ds w Hw Hds Hp)
    as [w1 Hfst].
  split; [eauto|]. split.
  - intros ->. inversion Hall as [|r d0 l l' [Hr _] Hnil]; subst.
    inversion Hnil; subst.
    rewrite Hd' in Hr. injection Hr as <-.
    rewrite Hfst. cbn [flat_map]. rewrite Hrows. reflexivity.
  - intro Hu.
    assert (Hshort : forall out,
               fst (create_follow_relationships driver follow_relationships w)
               = Ok out ->
               (List.length out < List.length follow_relationships)%nat).
    { intros out Hout. rewrite Hfst in Hout.
      rewrite (for_append_length _ _ _ _ Hout), length_edge_records,
        (Forall2_length Hall).
      apply (flat_map_length_lt _ ds d); auto.
      intros x _. now apply match_rows_unique. }
    split; [exact Hshort|]. split.
    + rewrite Hfst.
      destruct (fst (for_append decode_follow _ w1)) as [out|err] eqn:E;
        [left; eauto|].
      right. f_equal. exact (for_append_follows_raise _ _ _ _ E).
    + intro Hd.
      assert (Hdec : Forall row_decodes
                       (flat_map (match_rows (nodes (store w))) ds)).
      { apply Forall_flat_map.
        apply (Forall2_Forall_right _ _ _ _ Hall).
        intros r d0 [_ Hp0]. now apply match_rows_decode. }
      destruct (create_follow_relationships_no_faults driver _ ds w Hw Hds
                  Hdec) as [out [Hout _]].
      exists out. split; [exact Hout | now apply Hshort].
Qed.

Lemma matches_user_id_neq (s s' : string) (n : node) :
  get (node_props n) "user_id" = VStr s' -> s' <> s ->
  matches_user_id (VStr s) n = false.
Proof.
  intros Hget Hne. unfold matches_user_id. rewrite Hget.
  cbn [is_none negb to_store value_eqb].
  rewrite (string_eqb_neq _ _ Hne). now rewrite andb_false_r.
Qed.

Lemma matches_user_id_eq (s : string) (n : node) :
  has_label "User" n = true -> get (node_props n) "user_id" = VStr s ->
  matches_user_id (VStr s) n = true.
Proof.
  intros Hl Hget. unfold matches_user_id. rewrite Hl, Hget.
  cbn [is_none negb to_store value_eqb andb]. apply String.eqb_refl.
Qed.

Lemma C5_dangling_entry_shortens_result_witness :
  let driver := mk_driver "bolt://neo4j:7687" in
  let a := User.__init__ (VStr "u-1") (VStr "Alice") None None in
  let b := User.__init__ (VStr "u-2") (VStr "Bob") None (Some MALE) in
  let ghost := User.__init__ (VStr "u-9") (VStr "Nobody") None None in
  let w := snd (create_user_nodes driver [a; b] (fresh (fun _ => false))) in
  let t := VDateTime (mk_datetime (mk_date 2024 1 2) 0 0 0 0) in
  let rel := FollowRelationship.__init__ (VStr "r-1") a ghost t in
  let rels := [FollowRelationship.__init__ (VStr "r-0") a b t; rel] in
  (exists d, FollowRelationship.to_dict rel = Ok d
             /\ match_rows (nodes (store w)) d = [])
  /\ exists out,
       fst (create_follow_relationships driver rels w) = Ok out
       /\ (List.length out < List.length rels)%nat.
Proof.
  intros driver a b ghost w t rel rels.
  assert (Hw : no_faults w) by (intro k; reflexivity).
  assert (Hwf : Forall well_formed rels)
    by (repeat constructor; discriminate).
  assert (Hin : In rel rels) by (right; now left).
  assert (Hdg : dangling (store w) rel).
  { exists (VStr "u-9"). split; [right; reflexivity | reflexivity]. }
  assert (Hu : unique_user_ids (store w)).
  { intro v. vm_compute nodes.
    destruct v; try (vm_compute; lia).
    destruct (String.eqb_spec "u-1" s) as [<-|N1]; [vm_compute; lia|].
    cbn [filter].
    rewrite (matches_user_id_neq s "u-1") by (reflexivity || assumption).
    destruct (matches_user_id (VStr s) _); simpl; lia. }
  assert (Hd : decodable (store w)).
  { intros n Hn _. vm_compute in Hn.
    destruct Hn as [<-|[<-|[]]]; [left | right; exists MALE]; reflexivity. }
  destruct (C5_dangling_entry_shortens_result driver w rels rel Hw Hwf Hin Hdg)
    as [H1 [_ H3]].
  split; [exact H1|].
  exact (proj2 (proj2 (H3 Hu)) Hd).
Defined.

(** C5 fails as stated: after a [user_id] has been created twice, an
    entry that matches contributes four rows, and a list with a dangling
    entry comes back no shorter than it went. *)
Lemma C5_duplicate_user_id_hides_failure :
  ~ (forall driver w follow_relationships rel out,
       no_faults w -> Forall well_formed follow_relationships ->
       In rel follow_relationships -> dangling (store w) rel ->
       fst (create_follow_relationships driver follow_relationships w) = Ok out ->
       (List.length out < List.length follow_relationships)%nat).
Proof.
  intro H.
  pose (driver := mk_driver "bolt://neo4j:7687").
  pose (a := User.__init__ (VStr "u-1") (VStr "Alice") None None).
  pose (ghost := User.__init__ (VStr "u-9") (VStr "Nobody") None None).
  pose (w := snd (create_user_nodes driver [a; a] (fresh (fun _ => false)))).
  pose (since := VDateTime (mk_datetime (mk_date 2024 1 2) 0 0 0 0)).
  pose (r1 := FollowRelationship.__init__ (VStr "r-1") a a since).
  pose (r2 := FollowRelationship.__init__ (VStr "r-2") a ghost since).
  destruct (fst (create_follow_relationships driver [r1; r2] w))
    as [out|e] eqn:E; [|discriminate E].
  assert (Hlen : List.length out = 4%nat).
  { pose proof E as E'. vm_compute in E'. injection E' as E'.
    now rewrite <- E'. }
  assert (Hlt : (List.length out < List.length [r1; r2])%nat);
    [|rewrite Hlen in Hlt; simpl in Hlt; lia].
  apply (H driver w [r1; r2] r2 out).
  - intro k. reflexivity.
  - repeat constructor; discriminate.
  - right. now left.
  - exists (VStr "u-9"). split; [right; reflexivity | reflexivity].
  - exact E.
Qed.

(** A matched node whose gender does not decode makes
    [create_follow_relationships] raise: no list is returned. *)
Lemma create_follow_relationships_undecodable_node :
  let driver := mk_driver "bolt://neo4j:7687" in
  let w := mk_world
             (mk_graph [mk_node 0 ["User"]
                          [("user_id", VStr "u-1"); ("gender", VStr "x")]]
                       [] 1)
             [] (fun _ => false) 0 in
  let a := User.__init__ (VStr "u-1") (VStr "Alice") None None in
  let t := VDateTime (mk_datetime (mk_date 2024 1 2) 0 0 0 0) in
  unique_user_ids (store w)
  /\ fst (create_follow_relationships driver
            [FollowRelationship.__init__ (VStr "r-1") a a t] w)
     = Raise ValueError.
Proof.
  intros driver w a t. split; [|reflexivity].
  intro v. unfold w. cbn [store nodes filter].
  destruct (matches_user_id v _); simpl; lia.
Qed.

Lemma get_stored_user_id (p : User._Properties) :
  get (store_props (User._Properties_to_dict p)) "user_id"
  = to_store (User.user_id p).
Proof. destruct p as [uid nm bd g]. destruct uid, nm, bd, g; reflexivity. Qed.

Lemma from_entity_gender_decodes (node : dict) (u : User.t) :
  User.from_entity node = Ok u -> gender_decodes node.
Proof.
  unfold User.from_entity, gender_decodes.
  destruct (truthy (get node "gender")); [|now left].
  destruct (Gender_of_value (get node "gender")) as [g|e]; [|discriminate].
  right. eauto.
Qed.

(** The rows of an entry from [a] to [b] once one node for each has been
    added to a graph that had none. *)
Lemma match_rows_created_once (ns : list node) (pa pb : User._Properties)
    (a b : string) (k : nat) (props : option dict) :
  User.user_id pa = VStr a -> User.user_id pb = VStr b -> a <> b ->
  filter (matches_user_id (VStr a)) ns = [] ->
  filter (matches_user_id (VStr b)) ns = [] ->
  let na := mk_node k ["User"] (store_props (User._Properties_to_dict pa)) in
  let nb := mk_node (S k) ["User"]
              (store_props (User._Properties_to_dict pb)) in
  let d := FollowRelationship.mk_follow_dict (VStr a) (VStr b) props in
  match_rows (ns ++ [na; nb]) d = [(d, na, nb)].
Proof.
  intros Ha Hb Hab Hna Hnb na nb d.
  assert (Ga : get (node_props na) "user_id" = VStr a)
    by (unfold na; simpl; now rewrite get_stored_user_id, Ha).
  assert (Gb : get (node_props nb) "user_id" = VStr b)
    by (unfold nb; simpl; now rewrite get_stored_user_id, Hb).
  unfold match_rows, d. cbn [FollowRelationship.start_user_id
                             FollowRelationship.end_user_id].
  rewrite !filter_app, Hna, Hnb. cbn [filter app].
  rewrite (matches_user_id_eq a na eq_refl Ga).
  rewrite (matches_user_id_eq b nb eq_refl Gb).
  rewrite (matches_user_id_neq a b nb Gb) by congruence.
  rewrite (matches_user_id_neq b a na Ga) by congruence.
  reflexivity.
Qed.

(** C7 (as amended): for every two Users A and B with distinct
    [user_id]s, created in a store that held no User node with either
    [user_id], and a single FollowRelationship from A to B with a given
    [since] timestamp, [create_follow_relationships], when no call into the
    driver fails, returns exactly one relationship, whose start node has
    A's [user_id], whose end node has B's, and whose [since] holds exactly
    the input timestamp, as the driver's DateTime in which the store hands
    it back. *)
Theorem C7_follow_created_once (driver : Driver) (w : world)
    (pa pb : User._Properties) (a b : string) (relationship_id : value)
    (t : datetime) :
  no_faults w ->
  User.user_id pa = VStr a -> User.user_id pb = VStr b -> a <> b ->
  never_created (store w) (VStr a) -> never_created (store w) (VStr b) ->
  let ua := User.mk (Some pa) in
  let ub := User.mk (Some pb) in
  let w1 := snd (create_user_nodes driver [ua; ub] w) in
  let rel := FollowRelationship.__init__ relationship_id ua ub (VDateTime t) in
  exists r q,
    fst (create_follow_relationships driver [rel] w1) = Ok [r]
    /\ User.properties_user_id (FollowRelationship.start_node r) = Ok (VStr a)
    /\ User.properties_user_id (FollowRelationship.end_node r) = Ok (VStr b)
    /\ FollowRelationship.properties r = Some q
    /\ FollowRelationship.since q = VNeoDateTime t.
Proof.
  intros Hw Ha Hb Hab Hna Hnb ua ub w1 rel.
  unfold w1, ua, ub.
  change [User.mk (Some pa); User.mk (Some pb)]
    with (map (fun p => User.mk (Some p)) [pa; pb]).
  rewrite (create_user_nodes_no_faults driver [pa; pb] w Hw).
  cbn [snd map user_nodes].
  set (na := mk_node (next_id (store w)) ["User"]
               (store_props (User._Properties_to_dict pa))).
  set (nb := mk_node (S (next_id (store w))) ["User"]
               (store_props (User._Properties_to_dict pb))).
  set (props := Some [("relationship_id", relationship_id);
                      ("since", VDateTime t)]).
  set (d := FollowRelationship.mk_follow_dict (VStr a) (VStr b) props).
  match goal with |- context [create_follow_relationships _ _ ?w2] =>
    set (w' := w2) end.
  assert (Hds : to_dicts [rel] = Ok [d]).
  { unfold rel, to_dicts, FollowRelationship.to_dict, User.properties_user_id.
    simpl. now rewrite Ha, Hb. }
  assert (Hrows : flat_map (match_rows (nodes (store w'))) [d] = [(d, na, nb)]).
  { cbn [flat_map]. rewrite app_nil_r.
    apply (match_rows_created_once _ pa pb a b _ props); assumption. }
  assert (Hdec : Forall row_decodes
                   (flat_map (match_rows (nodes (store w'))) [d])).
  { rewrite Hrows. constructor; [|constructor].
    repeat split.
    - discriminate.
    - apply (from_entity_gender_decodes _ (stored pa)).
      apply from_entity_store_props.
    - apply (from_entity_gender_decodes _ (stored pb)).
      apply from_entity_store_props. }
  destruct (create_follow_relationships_no_faults driver [rel] [d] w'
              (fun k => Hw k) Hds Hdec) as [out [Hout Hall]].
  rewrite Hrows in Hall.
  inversion Hall as [|row r rows out' Hr Hnil]; subst.
  inversion Hnil; subst.
  destruct Hr as [props' [us [ue [Hp [Hs [He ->]]]]]].
  unfold na, nb in Hs, He. simpl in Hs, He.
  rewrite from_entity_store_props in Hs, He.
  injection Hs as <-. injection He as <-. injection Hp as <-.
  eexists. eexists. split; [exact Hout|].
  unfold User.properties_user_id. simpl. rewrite Ha, Hb.
  repeat split. destruct relationship_id; reflexivity.
Qed.

Lemma C7_follow_created_once_witness :
  let driver := mk_driver "bolt://neo4j:7687" in
  let pa := User.mk_Properties (VStr "u-1") (VStr "Alice") None None in
  let pb := User.mk_Properties (VStr "u-2") (VStr "Bob")
              (Some (mk_date 1990 1 2)) None in
  let t := mk_datetime (mk_date 2024 1 2) 0 0 0 0 in
  let w := fresh (fun _ => false) in
  let w1 := snd (create_user_nodes driver
                   [User.mk (Some pa); User.mk (Some pb)] w) in
  let rel := FollowRelationship.__init__ (VStr "r-1") (User.mk (Some pa))
               (User.mk (Some pb)) (VDateTime t) in
  exists r q,
    fst (create_follow_relationships driver [rel] w1) = Ok [r]
    /\ User.properties_user_id (FollowRelationship.start_node r)
       = Ok (VStr "u-1")
    /\ User.properties_user_id (FollowRelationship.end_node r)
       = Ok (VStr "u-2")
    /\ FollowRelationship.properties r = Some q
    /\ FollowRelationship.since q = VNeoDateTime t.
Proof.
  intros driver pa pb t w w1 rel.
  apply (C7_follow_created_once driver w pa pb "u-1" "u-2" (VStr "r-1") t).
  - intro k. reflexivity.
  - reflexivity.
  - reflexivity.
  - discriminate.
  - reflexivity.
  - reflexivity.
Defined.

(** C7 fails as stated: when A has been created twice, a single
    FollowRelationship from A to B comes back as two relationships. *)
Lemma C7_user_created_twice :
  let driver := mk_driver "bolt://neo4j:7687" in
  let ua := User.__init__ (VStr "u-1") (VStr "Alice") None None in
  let ub := User.__init__ (VStr "u-2") (VStr "Bob")
              (Some (mk_date 1990 1 2)) None in
  let w1 := snd (create_user_nodes driver [ua; ub; ua]
                   (fresh (fun _ => false))) in
  let rel := FollowRelationship.__init__ (VStr "r-1") ua ub
               (VDateTime (mk_datetime (mk_date 2024 1 2) 0 0 0 0)) in
  exists out,
    fst (create_follow_relationships driver [rel] w1) = Ok out
    /\ List.length out = 2%nat
    /\ ~ (exists r, out = [r]).
Proof.
  intros driver ua ub w1 rel.
  eexists. split; [vm_compute; reflexivity|].
  split; [reflexivity|].
  intros [r H]. discriminate H.
Qed.

(** * Further properties of the entity mapping *)

(** The lookup returns a member only for its own code. *)
Lemma Gender_of_value_code (v : value) (g : Gender) :
  Gender_of_value v = Ok g -> v = VStr (Gender_value g).
Proof.
  destruct v; simpl; try discriminate.
  destruct (String.eqb_spec s "male") as [->|_];
    [intro H; injection H as <-; reflexivity|].
  destruct (String.eqb_spec s "female") as [->|_];
    [intro H; injection H as <-; reflexivity|].
  destruct (String.eqb_spec s "other") as [->|_];
    [intro H; injection H as <-; reflexivity | discriminate].
Qed.

Lemma Gender_of_code (g : Gender) :
  Gender_of_value (VStr (Gender_value g)) = Ok g.
Proof. destruct g; reflexivity. Qed.

(** X1: on the values that a property set can hold (None, an integer, a
    string, a native or driver date or datetime), the enum lookup and
    [.value] are inverse to each other: [Gender(v)] returns the member [g]
    exactly when [v] is the string code of [g]. *)
Theorem Gender_lookup_iff_code (v : value) (g : Gender) :
  Gender_of_value v = Ok g <-> v = VStr (Gender_value g).
Proof.
  split.
  - apply Gender_of_value_code.
  - intros ->. apply Gender_of_code.
Qed.

(** X2: [User.from_entity] raises exactly when the gender value is truthy
    and is not the code of a member, and what it raises is [ValueError];
    no other entry of the property set can make it fail. *)
Theorem from_entity_raises_iff (node : dict) :
  ((exists e, User.from_entity node = Raise e)
   <-> truthy (get node "gender") = true
       /\ forall g, get node "gender" <> VStr (Gender_value g))
  /\ forall e, User.from_entity node = Raise e -> e = ValueError.
Proof.
  split; [|intros e H; now apply from_entity_raise in H].
  unfold User.from_entity. split.
  - intros [e H].
    destruct (truthy (get node "gender")); [|discriminate].
    split; [reflexivity|]. intros g Hg.
    rewrite Hg, Gender_of_code in H. discriminate.
  - intros [Ht Hg]. rewrite Ht.
    destruct (Gender_of_value (get node "gender")) as [g|e] eqn:E.
    + apply Gender_of_value_code in E. now elim (Hg g).
    + eauto.
Qed.

(** X3: decoding the code's own encoding never fails: for every
    [_Properties], [from_entity] on the output of [to_dict] returns a User
    with the same [user_id], [name] and [gender], and with [birth_date]
    None. *)
Theorem from_entity_to_dict (p : User._Properties) :
  User.from_entity (User._Properties_to_dict p)
  = Ok (User.__init__ (User.user_id p) (User.name p) None (User.gender p)).
Proof. destruct p as [uid nm bd [[]|]]; destruct bd; reflexivity. Qed.

(** X4: what a User returned by [from_entity] holds: [user_id] and [name]
    are what [get] gave, whatever their type; [birth_date] is set exactly
    when the value is a driver Date (a native date, a string or a DateTime
    is dropped without error); [gender] is a member exactly when the value
    is its code, and None exactly when the value is falsy. *)
Theorem from_entity_fields (node : dict) (u : User.t) :
  User.from_entity node = Ok u ->
  exists p,
    User.properties u = Some p
    /\ User.user_id p = get node "user_id"
    /\ User.name p = get node "name"
    /\ (forall d, User.birth_date p = Some d
                  <-> get node "birth_date" = VNeoDate d)
    /\ (forall g, User.gender p = Some g
                  <-> get node "gender" = VStr (Gender_value g))
    /\ (User.gender p = None <-> truthy (get node "gender") = false).
Proof.
  unfold User.from_entity. intro H.
  assert (Hb : forall d,
             match get node "birth_date" with
             | VNeoDate d' => Some d'
             | _ => None
             end = Some d <-> get node "birth_date" = VNeoDate d).
  { intro d. destruct (get node "birth_date"); split; intro E;
      try discriminate; injection E as ->; reflexivity. }
  destruct (truthy (get node "gender")) eqn:Ht.
  - destruct (Gender_of_value (get node "gender")) as [g|e] eqn:E;
      [|discriminate].
    injection H as <-. eexists. split; [reflexivity|]. simpl.
    repeat split; try apply Hb; try discriminate.
    + intro Hg. injection Hg as <-. now apply Gender_of_value_code.
    + intro Hg. rewrite Hg, Gender_of_code in E. congruence.
  - injection H as <-. eexists. split; [reflexivity|]. simpl.
    repeat split; try apply Hb; try discriminate.
    intro Hg. rewrite Hg in Ht. destruct g; discriminate Ht.
Qed.

Lemma from_entity_fields_witness :
  let node : dict := [("user_id", VInt 7); ("birth_date", VStr "1990-01-02");
                      ("gender", VStr "other")] in
  exists p,
    User.properties (User.__init__ (VInt 7) VNone None (Some OTHER)) = Some p
    /\ User.user_id p = VInt 7
    /\ User.name p = VNone
    /\ (forall d, User.birth_date p = Some d
                  <-> get node "birth_date" = VNeoDate d)
    /\ (forall g, User.gender p = Some g
                  <-> get node "gender" = VStr (Gender_value g))
    /\ (User.gender p = None <-> truthy (get node "gender") = false).
Proof.
  intro node.
  exact (from_entity_fields node
           (User.__init__ (VInt 7) VNone None (Some OTHER)) eq_refl).
Defined.

(** X5: the properties of a FollowRelationship round-trip: for every
    relationship whose [properties] is set, [from_entity] on the output of
    [_Properties.to_dict], with the same two endpoints, gives back the
    relationship. *)
Theorem FollowRelationship_round_trip (rel : FollowRelationship.t)
    (q : FollowRelationship._Properties) :
  FollowRelationship.properties rel = Some q ->
  FollowRelationship.from_entity (FollowRelationship._Properties_to_dict q)
    (FollowRelationship.start_node rel) (FollowRelationship.end_node rel)
  = rel.
Proof.
  destruct rel as [s e pr]. simpl. intros ->. now destruct q.
Qed.

Lemma FollowRelationship_round_trip_witness :
  let a := User.__init__ (VStr "u-1") (VStr "Alice") None None in
  let b := User.__init__ (VStr "u-2") (VStr "Bob") None None in
  let t := VDateTime (mk_datetime (mk_date 2024 1 2) 0 0 0 0) in
  FollowRelationship.from_entity
    [("relationship_id", VStr "r-1"); ("since", t)] a b
  = FollowRelationship.__init__ (VStr "r-1") a b t.
Proof.
  intros a b t.
  exact (FollowRelationship_round_trip
           (FollowRelationship.__init__ (VStr "r-1") a b t)
           (FollowRelationship.mk_Properties (VStr "r-1") t) eq_refl).
Defined.

(** X6: [FollowRelationship.to_dict] raises exactly when the
    [properties] of one of its endpoints is None, and then it is an
    [AttributeError]; a relationship whose own [properties] is None is
    serialized with a None in their place. *)
Theorem FollowRelationship_to_dict_raises_iff (rel : FollowRelationship.t) :
  ((exists e, FollowRelationship.to_dict rel = Raise e)
   <-> User.properties (FollowRelationship.start_node rel) = None
       \/ User.properties (FollowRelationship.end_node rel) = None)
  /\ (forall e, FollowRelationship.to_dict rel = Raise e -> e = AttributeError)
  /\ (forall d, FollowRelationship.to_dict rel = Ok d ->
        FollowRelationship.properties rel = None ->
        FollowRelationship.fd_properties d = None).
Proof.
  destruct rel as [[[ps|]] [[pe|]] q];
    unfold FollowRelationship.to_dict, User.properties_user_id; simpl;
    (split; [split; [intros [e H]; try discriminate H; auto
                    | intros [H|H]; try discriminate H; eauto]
            | split; [intros e H; try discriminate H; now injection H
                     | intros d H Hq; try discriminate H;
                       injection H as <-; now rewrite Hq]]).
Qed.

(** * Further properties of the batch writes *)

(** [create_user_nodes] makes two calls into the driver; when neither
    fails it goes through. *)
Lemma create_user_nodes_two_calls (driver : Driver)
    (ps : list User._Properties) (w : world) :
  faults w (calls w) = false ->
  faults w (S (calls w)) = false ->
  create_user_nodes driver (map (fun p => User.mk (Some p)) ps) w
  = (Ok (map stored ps),
     mk_world
       (mk_graph
          (nodes (store w)
           ++ user_nodes (map User._Properties_to_dict ps) (next_id (store w)))
          (rels (store w)) (next_id (store w) + List.length ps))
       (trace w ++ batch_trace)
       (faults w) (S (S (calls w)))).
Proof.
  intros H0 H1.
  unfold create_user_nodes, with_, Driver_session, Session_run, Session_close,
    log, bind at 1 2 3, driver_call, ret.
  rewrite H0. simpl. rewrite H1. simpl.
  rewrite map_map. unfold User.to_dict. simpl.
  rewrite <- (map_map User._Properties_to_dict Some).
  rewrite create_users_spec. rewrite for_append_users. simpl.
  rewrite length_map, <- !app_assoc. reflexivity.
Qed.





(** X8: on an empty list both batch writes still open a session and run
    their query; they return the empty list and leave the graph as it
    was. *)
Theorem batch_writes_on_empty_list (driver : Driver) (w : world) :
  no_faults w ->
  create_user_nodes driver [] w
  = (Ok [], mk_world (store w) (trace w ++ batch_trace) (faults w)
                     (S (S (calls w))))
  /\ create_follow_relationships driver [] w
     = (Ok [], mk_world (store w) (trace w ++ batch_trace) (faults w)
                        (S (S (calls w)))).
Proof.
  intro H. split.
  - unfold create_user_nodes, with_, Driver_session, Session_run,
      Session_close, log, bind, driver_call, ret.
    rewrite H. simpl. rewrite H. simpl. now rewrite <- !app_assoc.
  - unfold create_follow_relationships, with_, Driver_session, Session_run,
      Session_close, log, bind, driver_call, ret, lift.
    rewrite H. simpl. rewrite H. simpl. now rewrite <- !app_assoc.
Qed.

Lemma batch_writes_on_empty_list_witness :
  let driver := mk_driver "bolt://neo4j:7687" in
  let w := fresh (fun _ => false) in
  create_user_nodes driver [] w
  = (Ok [], mk_world empty_graph batch_trace (faults w) 2)
  /\ create_follow_relationships driver [] w
     = (Ok [], mk_world empty_graph batch_trace (faults w) 2).
Proof.
  intros driver w.
  exact (batch_writes_on_empty_list driver w (fun k => eq_refl)).
Defined.

Lemma length_flat_map {A B} (f : A -> list B) (l : list A) :
  List.length (flat_map f l) = list_sum (map (fun x => List.length (f x)) l).
Proof.
  induction l as [|a l IH]; simpl; [reflexivity|].
  now rewrite length_app, IH.
Qed.

Lemma length_match_rows (g : graph) (d : FollowRelationship.follow_dict) :
  List.length (match_rows (nodes g) d)
  = (match_count g (FollowRelationship.start_user_id d)
     * match_count g (FollowRelationship.end_user_id d))%nat.
Proof.
  unfold match_rows, match_count.
  induction (filter (matches_user_id (FollowRelationship.start_user_id d))
               (nodes g)) as [|s l IH]; simpl; [reflexivity|].
  now rewrite length_app, length_map, IH.
Qed.

(** X9: when no call into the driver fails and the User nodes of the
    store decode, [create_follow_relationships] returns, for each entry,
    one relationship per pair of a node matching the start [user_id] and a
    node matching the end [user_id]: the length of the result is the sum
    over the entries of the products of the two match counts. *)
Theorem create_follow_relationships_row_count (driver : Driver) (w : world)
    (follow_relationships : list FollowRelationship.t) :
  no_faults w ->
  decodable (store w) ->
  Forall well_formed follow_relationships ->
  exists out ds,
    to_dicts follow_relationships = Ok ds
    /\ List.length ds = List.length follow_relationships
    /\ fst (create_follow_relationships driver follow_relationships w) = Ok out
    /\ List.length out
       = list_sum
           (map (fun d =>
                   match_count (store w) (FollowRelationship.start_user_id d)
                   * match_count (store w) (FollowRelationship.end_user_id d))%nat
                ds).
Proof.
  intros Hw Hd Hwf.
  destruct (to_dicts_well_formed _ Hwf) as [ds [Hds Hall]].
  assert (Hdec : Forall row_decodes
                   (flat_map (match_rows (nodes (store w))) ds)).
  { apply Forall_flat_map.
    apply (Forall2_Forall_right _ _ _ _ Hall).
    intros r d0 [_ Hp]. now apply match_rows_decode. }
  destruct (create_follow_relationships_no_faults driver _ ds w Hw Hds Hdec)
    as [out [Hout Hrel]].
  exists out, ds. split; [exact Hds|].
  split; [symmetry; exact (Forall2_length Hall)|].
  split; [exact Hout|].
  rewrite <- (Forall2_length Hrel), length_flat_map.
  f_equal. apply map_ext. intro d. apply length_match_rows.
Qed.

Lemma create_follow_relationships_row_count_witness :
  let driver := mk_driver "bolt://neo4j:7687" in
  let a := User.__init__ (VStr "u-1") (VStr "Alice") None None in
  let b := User.__init__ (VStr "u-2") (VStr "Bob") None (Some MALE) in
  let w := snd (create_user_nodes driver [a; b; a] (fresh (fun _ => false))) in
  let t := VDateTime (mk_datetime (mk_date 2024 1 2) 0 0 0 0) in
  let rels := [ FollowRelationship.__init__ (VStr "r-1") a b t;
                FollowRelationship.__init__ (VStr "r-2") a a t ] in
  exists out ds,
    to_dicts rels = Ok ds
    /\ List.length ds = 2%nat
    /\ fst (create_follow_relationships driver rels w) = Ok out
    /\ List.length out
       = list_sum
           (map (fun d =>
                   match_count (store w) (FollowRelationship.start_user_id d)
                   * match_count (store w) (FollowRelationship.end_user_id d))%nat
                ds).
Proof.
  intros driver a b w t rels.
  apply (create_follow_relationships_row_count driver w rels).
  - intro k. reflexivity.
  - intros n Hn _. vm_compute in Hn.
    destruct Hn as [<-|[<-|[<-|[]]]];
      [left | right; exists MALE | left]; reflexivity.
  - repeat constructor; discriminate.
Defined.

Lemma for_append_pure {A B} (f : A -> M B) (xs : list A) (w : world) :
  (forall x w0, snd (f x w0) = w0) -> snd (for_append f xs w) = w.
Proof.
  intro Hf. induction xs as [|x xs IH]; simpl; [reflexivity|].
  unfold bind at 1. specialize (Hf x w).
  destruct (f x w) as [[y|e] w1]; simpl in Hf; subst w1; [|reflexivity].
  unfold bind at 1.
  destruct (for_append f xs w) as [[ys|e] w2]; simpl in *; subst; reflexivity.
Qed.

Lemma decode_follow_pure (r : record) (w : world) :
  snd (decode_follow r w) = w.
Proof.
  unfold decode_follow, bind, lift, ret.
  destruct (record_get r "f"); [|reflexivity].
  destruct (record_get r "start"); [|reflexivity].
  destruct (record_get r "end"); [|reflexivity].
  destruct (User.from_entity (entity_dict a0)); [|reflexivity].
  destruct (User.from_entity (entity_dict a1)); reflexivity.
Qed.

Lemma only_new_follows_refl (g : graph) : only_new_follows g g.
Proof.
  split; [reflexivity|]. exists []. split; [now rewrite app_nil_r | constructor].
Qed.

Lemma create_edges_frame (ns : list node)
    (rows : list (FollowRelationship.follow_dict * node * node)) (g g' : graph)
    (rs : list record) :
  Forall (fun row =>
            In (snd (fst row)) ns /\ In (snd row) ns
            /\ has_label "User" (snd (fst row)) = true
            /\ has_label "User" (snd row) = true) rows ->
  create_edges rows g = Ok (rs, g') ->
  nodes g' = nodes g
  /\ exists new,
       rels g' = rels g ++ new
       /\ Forall (fun r =>
                    rel_type r = "FOLLOWS"
                    /\ exists s e,
                         In s ns /\ In e ns
                         /\ has_label "User" s = true
                         /\ has_label "User" e = true
                         /\ rel_start r = node_id s /\ rel_end r = node_id e)
                 new.
Proof.
  intro H. revert g g' rs.
  induction H as [|[[follow s] e] rows [Hs [He [Ls Le]]] _ IH];
    intros g g' rs; simpl.
  - intro E. injection E as <- <-. split; [reflexivity|].
    exists []. split; [now rewrite app_nil_r | constructor].
  - destruct (FollowRelationship.fd_properties follow) as [props|];
      [|discriminate].
    match goal with |- context [create_edges rows ?g1] =>
      destruct (create_edges rows g1) as [[rs1 g1']|err] eqn:E1 end;
      [|discriminate].
    intro E. injection E as <- <-.
    destruct (IH _ _ _ E1) as [Hn [new [Hr Hnew]]]. simpl in Hn, Hr.
    split; [exact Hn|].
    eexists (_ :: new). split; [rewrite Hr, <- app_assoc; reflexivity|].
    constructor; [|exact Hnew].
    split; [reflexivity|]. exists s, e. simpl in *. auto 10.
Qed.

Lemma match_rows_in (ns : list node) (ds : list FollowRelationship.follow_dict) :
  Forall (fun row =>
            In (snd (fst row)) ns /\ In (snd row) ns
            /\ has_label "User" (snd (fst row)) = true
            /\ has_label "User" (snd row) = true)
         (flat_map (match_rows ns) ds).
Proof.
  apply Forall_forall. intros [[f s] e] Hin.
  apply in_flat_map in Hin. destruct Hin as [d [_ Hin]].
  unfold match_rows in Hin. apply in_flat_map in Hin.
  destruct Hin as [s' [Hs Hin]]. apply in_map_iff in Hin.
  destruct Hin as [e' [Heq He]]. injection Heq as <- <- <-.
  apply filter_In in Hs. apply filter_In in He.
  destruct Hs as [Hs Hms], He as [He Hme].
  unfold matches_user_id in Hms, Hme.
  apply andb_prop in Hms. destruct Hms as [Hms _].
  apply andb_prop in Hms. destruct Hms as [Hms _].
  apply andb_prop in Hme. destruct Hme as [Hme _].
  apply andb_prop in Hme. destruct Hme as [Hme _].
  simpl. auto.
Qed.

(** X10: on every path, whatever call fails and whatever it returns or
    raises, [create_follow_relationships] leaves the nodes of the store as
    they were and changes the edges only by adding FOLLOWS edges, each from
    a User node to a User node that was already there: it never creates a
    missing endpoint. *)
Theorem create_follow_relationships_frame (driver : Driver)
    (follow_relationships : list FollowRelationship.t) (w : world) :
  only_new_follows (store w)
    (store (snd (create_follow_relationships driver follow_relationships w))).
Proof.
  unfold create_follow_relationships, with_, Driver_session, Session_run,
    Session_close, log, bind at 1 2 3 4, driver_call, ret, lift.
  destruct (faults w (calls w)); simpl; [apply only_new_follows_refl|].
  destruct (to_dicts follow_relationships) as [ds|e]; simpl;
    [|apply only_new_follows_refl].
  destruct (faults w (S (calls w))); simpl; [apply only_new_follows_refl|].
  destruct (create_edges (flat_map (match_rows (nodes (store w))) ds) (store w))
    as [[rs g']|e] eqn:E; simpl; [|apply only_new_follows_refl].
  match goal with |- context [for_append decode_follow rs ?w1] =>
    pose proof (for_append_pure decode_follow rs w1 decode_follow_pure) as Hp;
    destruct (for_append decode_follow rs w1) as [res w2] end.
  simpl in Hp. subst w2. simpl.
  exact (create_edges_frame _ _ _ _ _ (match_rows_in _ ds) E).
Qed.

Lemma create_users_frame (users : list (option dict)) (g g' : graph)
    (rs : list record) :
  create_users users g = Ok (rs, g') ->
  only_new_users (List.length users) g g'.
Proof.
  revert g g' rs. induction users as [|[d|] users IH]; intros g g' rs; simpl.
  - intro E. injection E as <- <-. split; [reflexivity|].
    exists []. rewrite app_nil_r. repeat split; [simpl; lia | constructor].
  - match goal with |- context [create_users users ?g1] =>
      destruct (create_users users g1) as [[rs1 g1']|err] eqn:E1 end;
      [|discriminate].
    intro E. injection E as <- <-.
    destruct (IH _ _ _ E1) as [Hr [new [Hn [Hlen Hall]]]]. simpl in Hr, Hn.
    split; [exact Hr|].
    eexists (_ :: new). split; [rewrite Hn, <- app_assoc; reflexivity|].
    split; [simpl; lia|]. constructor; [reflexivity | exact Hall].
  - discriminate.
Qed.

(** X11: on every path, [create_user_nodes] leaves the edges and the
    existing nodes of the store as they were; what it adds is at most one
    node per input User, each labelled User. *)
Theorem create_user_nodes_frame (driver : Driver) (users : list User.t)
    (w : world) :
  only_new_users (List.length users) (store w)
    (store (snd (create_user_nodes driver users w))).
Proof.
  assert (Hrefl : only_new_users (List.length users) (store w) (store w)).
  { split; [reflexivity|]. exists []. rewrite app_nil_r.
    repeat split; [simpl; lia | constructor]. }
  unfold create_user_nodes, with_, Driver_session, Session_run,
    Session_close, log, bind at 1 2 3, driver_call, ret.
  destruct (faults w (calls w)); simpl; [exact Hrefl|].
  destruct (faults w (S (calls w))); simpl; [exact Hrefl|].
  destruct (create_users (map User.to_dict users) (store w))
    as [[rs g']|e] eqn:E; simpl; [|exact Hrefl].
  match goal with |- context [for_append ?f rs ?w1] =>
    assert (Hp : snd (for_append f rs w1) = w1);
    [|destruct (for_append f rs w1) as [res w2]] end.
  { apply for_append_pure. intros r w0. unfold bind, lift.
    destruct (record_get r "u"); [|reflexivity].
    destruct (User.from_entity (entity_dict a)); reflexivity. }
  simpl in Hp. subst w2. simpl.
  apply create_users_frame in E. now rewrite length_map in E.
Qed.

Lemma in_user_nodes (ds : list dict) (d : dict) (k : nat) :
  In d ds -> exists i, In (mk_node i ["User"] (store_props d)) (user_nodes ds k).
Proof.
  revert k. induction ds as [|d0 ds IH]; intros k Hin; [contradiction|].
  destruct Hin as [-> | Hin]; simpl.
  - exists k. now left.
  - destruct (IH (S k) Hin) as [i Hi]. exists i. now right.
Qed.

(** X12: what [create_user_nodes] has created, the follow query finds:
    when no call fails, every input User with a string [user_id] is matched
    afterwards by at least one User node of the store. *)
Theorem created_users_are_matched (driver : Driver) (w : world)
    (users : list User.t) (u : User.t) (s : string) :
  no_faults w ->
  Forall (fun v => User.properties v <> None) users ->
  In u users ->
  User.properties_user_id u = Ok (VStr s) ->
  (1 <= match_count (store (snd (create_user_nodes driver users w))) (VStr s))%nat.
Proof.
  intros Hw Hall Hin Hs.
  assert (Hps : exists ps, users = map (fun p => User.mk (Some p)) ps).
  { clear Hin. induction Hall as [|[[p|]] l Hp _ [ps ->]].
    - now exists [].
    - now exists (p :: ps).
    - contradiction. }
  destruct Hps as [ps ->].
  destruct (properties_user_id_Ok _ _ Hs) as [p [-> Hp]].
  apply in_map_iff in Hin. destruct Hin as [p' [Heq Hin]].
  injection Heq as ->.
  rewrite (create_user_nodes_two_calls driver ps w (Hw _) (Hw _)).
  unfold match_count. simpl.
  destruct (in_user_nodes (map User._Properties_to_dict ps)
              (User._Properties_to_dict p) (next_id (store w))
              (in_map _ _ _ Hin)) as [i Hi].
  set (n := mk_node i ["User"] (store_props (User._Properties_to_dict p))) in *.
  assert (Hn : In n (filter (matches_user_id (VStr s))
                       (nodes (store w)
                        ++ user_nodes (map User._Properties_to_dict ps)
                             (next_id (store w))))).
  { apply filter_In. split; [apply in_or_app; now right|].
    apply matches_user_id_eq; [reflexivity|].
    unfold n. simpl. now rewrite get_stored_user_id, Hp. }
  destruct (filter _ _); [contradiction | simpl; lia].
Qed.

Lemma created_users_are_matched_witness :
  let driver := mk_driver "bolt://neo4j:7687" in
  let a := User.__init__ (VStr "u-1") (VStr "Alice") None None in
  let b := User.__init__ (VStr "u-2") (VStr "Bob") None (Some MALE) in
  (1 <= match_count
          (store (snd (create_user_nodes driver [a; b]
                         (fresh (fun _ => false)))))
          (VStr "u-2"))%nat.
Proof.
  intros driver a b.
  apply (created_users_are_matched driver (fresh (fun _ => false)) [a; b] b).
  - intro k. reflexivity.
  - repeat constructor; discriminate.
  - right. now left.
  - reflexivity.
Defined.

(** * Further properties of the scripts *)

Lemma live_sessions_snoc (t : list event) (ev : event) :
  live_sessions (t ++ [ev])
  = (live_sessions t
     + match ev with SessionOpen => 1 | SessionClose => -1 | _ => 0 end)%Z.
Proof. rewrite live_sessions_app. now destruct ev. Qed.

Lemma live_drivers_snoc (t : list event) (ev : event) :
  live_drivers (t ++ [ev])
  = (live_drivers t
     + match ev with DriverOpen => 1 | DriverClose => -1 | _ => 0 end)%Z.
Proof. rewrite live_drivers_app. now destruct ev. Qed.

(** X13: when no call fails, [main] of basic.py leaves the store without
    a single node or edge, whatever the store held before: its last query
    deletes every node, not only the one it created. *)
Theorem basic_main_empties_store (w : world) :
  no_faults w ->
  nodes (store (snd (basic_py.main w))) = []
  /\ rels (store (snd (basic_py.main w))) = [].
Proof.
  intro H.
  unfold basic_py.main, GraphDatabase_driver, Driver_session, Session_run,
    Result_consume, Session_close, Driver_close, print, log, bind,
    driver_call, ret.
  repeat (rewrite H; simpl).
  split; reflexivity.
Qed.

Lemma basic_main_empties_store_witness :
  let w := mk_world
             (mk_graph [mk_node 0 ["User"] [("user_id", VStr "u-1")];
                        mk_node 1 ["User"] [("user_id", VStr "u-2")]]
                       [mk_rel 2 "FOLLOWS" 0 1 []] 3)
             [] (fun _ => false) 0 in
  nodes (store (snd (basic_py.main w))) = []
  /\ rels (store (snd (basic_py.main w))) = [].
Proof.
  intro w. exact (basic_main_empties_store w (fun k => eq_refl)).
Defined.

(** X14: every error path of [main] of basic.py leaks: whenever it
    raises, what it raises is the driver's error, and it exits with the
    driver still open unless the failing call was the creation of the
    driver itself, and with the session still open unless the failing call
    was one of the first two. *)
Theorem basic_main_error_leaks (w : world) (e : exn) :
  fst (basic_py.main w) = Raise e ->
  e = DriverError
  /\ live_drivers (trace (snd (basic_py.main w)))
     = (live_drivers (trace w) + if faults w (calls w) then 0 else 1)%Z
  /\ live_sessions (trace (snd (basic_py.main w)))
     = (live_sessions (trace w)
        + if faults w (calls w) then 0
          else if faults w (S (calls w)) then 0 else 1)%Z.
Proof.
  unfold basic_py.main, GraphDatabase_driver, Driver_session, Session_run,
    Result_consume, Session_close, Driver_close, print, log, bind,
    driver_call, ret.
  destruct (faults w (calls w)); simpl;
    [intro H; injection H as <-; repeat split; lia|].
  destruct (faults w (S (calls w))); simpl;
    [intro H; injection H as <-;
     rewrite ?live_drivers_snoc, ?live_sessions_snoc; repeat split; lia|].
  repeat (match goal with
          | |- context [if faults w ?k then _ else _] =>
              destruct (faults w k); simpl;
              [intro H; injection H as <-;
               rewrite ?live_drivers_snoc, ?live_sessions_snoc;
               repeat split; lia|]
          end).
  discriminate.
Qed.

Lemma basic_main_error_leaks_witness :
  let w := fresh (fun k => Nat.eqb k 5) in
  fst (basic_py.main w) = Raise DriverError
  /\ DriverError = DriverError
  /\ live_drivers (trace (snd (basic_py.main w))) = 1%Z
  /\ live_sessions (trace (snd (basic_py.main w))) = 1%Z.
Proof.
  intro w.
  assert (H : fst (basic_py.main w) = Raise DriverError) by reflexivity.
  split; [exact H|].
  exact (basic_main_error_leaks w DriverError H).
Defined.

(** [with GraphDatabase.driver(uri) as driver] when the driver cannot be
    created, and when it can. *)
Lemma with_driver_fail {A} (uri : string) (body : Driver -> M A) (w : world) :
  faults w (calls w) = true ->
  with_ (GraphDatabase_driver uri) Driver_close body w
  = (Raise DriverError, mk_world (store w) (trace w) (faults w) (S (calls w))).
Proof.
  intro H. unfold with_, GraphDatabase_driver, bind, driver_call.
  now rewrite H.
Qed.

Lemma with_driver_ok {A} (uri : string) (body : Driver -> M A) (w : world) :
  faults w (calls w) = false ->
  with_ (GraphDatabase_driver uri) Driver_close body w
  = (fst (body (mk_driver uri)
            (mk_world (store w) (trace w ++ [DriverOpen]) (faults w)
                      (S (calls w)))),
     let w2 := snd (body (mk_driver uri)
                      (mk_world (store w) (trace w ++ [DriverOpen]) (faults w)
                                (S (calls w)))) in
     mk_world (store w2) (trace w2 ++ [DriverClose]) (faults w2) (calls w2)).
Proof.
  intro H. unfold with_, GraphDatabase_driver, bind, driver_call, ret.
  rewrite H. simpl.
  match goal with |- context [body ?d ?w1] => destruct (body d w1) end.
  reflexivity.
Qed.

(** The two batch writes when the session cannot be opened, and when the
    query fails. *)
Lemma create_user_nodes_session_fails (driver : Driver) (users : list User.t)
    (w : world) :
  faults w (calls w) = true ->
  create_user_nodes driver users w
  = (Raise DriverError, mk_world (store w) (trace w) (faults w) (S (calls w))).
Proof.
  intro H.
  unfold create_user_nodes, with_, Driver_session, bind, driver_call.
  now rewrite H.
Qed.

Lemma create_user_nodes_run_fails (driver : Driver) (users : list User.t)
    (w : world) :
  faults w (calls w) = false ->
  faults w (S (calls w)) = true ->
  create_user_nodes driver users w
  = (Raise DriverError,
     mk_world (store w) (trace w ++ [SessionOpen; SessionClose]) (faults w)
              (S (S (calls w)))).
Proof.
  intros H0 H1.
  unfold create_user_nodes, with_, Driver_session, Session_run, Session_close,
    log, bind, driver_call, ret.
  rewrite H0. simpl. rewrite H1. simpl. now rewrite <- app_assoc.
Qed.

Lemma create_follow_relationships_session_fails (driver : Driver)
    (follow_relationships : list FollowRelationship.t) (w : world) :
  faults w (calls w) = true ->
  create_follow_relationships driver follow_relationships w
  = (Raise DriverError, mk_world (store w) (trace w) (faults w) (S (calls w))).
Proof.
  intro H.
  unfold create_follow_relationships, with_, Driver_session, bind, driver_call.
  now rewrite H.
Qed.

Lemma create_follow_relationships_run_fails (driver : Driver)
    (follow_relationships : list FollowRelationship.t)
    (ds : list FollowRelationship.follow_dict) (w : world) :
  faults w (calls w) = false ->
  faults w (S (calls w)) = true ->
  to_dicts follow_relationships = Ok ds ->
  create_follow_relationships driver follow_relationships w
  = (Raise DriverError,
     mk_world (store w) (trace w ++ [SessionOpen; SessionClose]) (faults w)
              (S (S (calls w)))).
Proof.
  intros H0 H1 Hds.
  unfold create_follow_relationships, with_, Driver_session, Session_run,
    Session_close, log, bind, driver_call, ret, lift.
  rewrite H0. simpl. rewrite Hds, H1. simpl. now rewrite <- app_assoc.
Qed.


(** The three Users that [main] of users.py builds. *)
Lemma main_users_list (uuid4 : nat -> string) :
  [ User.__init__ (VStr (uuid4 0%nat)) (VStr "Alice") None None;
    User.__init__ (VStr (uuid4 1%nat)) (VStr "Bob") (Some (mk_date 1990 1 2)) None;
    User.__init__ (VStr (uuid4 2%nat)) (VStr "Charlie") (Some (mk_date 2000 10 11)) (Some FEMALE) ]
  = map (fun p => User.mk (Some p))
      [ User.mk_Properties (VStr (uuid4 0%nat)) (VStr "Alice") None None;
        User.mk_Properties (VStr (uuid4 1%nat)) (VStr "Bob") (Some (mk_date 1990 1 2)) None;
        User.mk_Properties (VStr (uuid4 2%nat)) (VStr "Charlie") (Some (mk_date 2000 10 11)) (Some FEMALE) ].
Proof. reflexivity. Qed.

(** Runs [main] of users.py, in the equation [E], up to its call of
    [create_follow_relationships]. *)
Ltac main_to_follows E F0 :=
  unfold users_py.main, try_except in E;
  rewrite (with_driver_ok _ _ _ F0) in E;
  cbv beta in E; rewrite main_users_list in E;
  unfold bind in E;
  rewrite create_user_nodes_two_calls in E by assumption;
  cbv [map stored bind index nth_error ret to_store
       User.user_id User.name User.birth_date User.gender] in E;
  cbn [store trace faults calls nodes rels next_id] in E.

Ltac closed_trace :=
  repeat split; try reflexivity; vm_compute; try lia; try reflexivity.

(** X15: when one of the five calls that [main] of users.py makes into
    the driver fails, [main] still returns normally: it has closed every
    session and the driver it had opened, its last action is the one
    [print] of the error, and no edge has been created; when the failing
    call is one of the first three, the store is as it was. *)
Theorem users_main_prints_driver_error (uuid4 : nat -> string) (w : world)
    (k : nat) :
  (k < 5)%nat ->
  faults w (calls w + k) = true ->
  (forall j, (j < k)%nat -> faults w (calls w + j) = false) ->
  fst (users_py.main uuid4 w) = Ok tt
  /\ (exists s,
        trace (snd (users_py.main uuid4 w)) = trace w ++ s ++ [Print]
        /\ count Print s = 0%nat /\ neutral 2 s)
  /\ rels (store (snd (users_py.main uuid4 w))) = rels (store w)
  /\ ((k <= 2)%nat -> store (snd (users_py.main uuid4 w)) = store w).
Proof.
  intros Hk Ht Hf.
  assert (F : forall j, (j < k)%nat -> faults w (Nat.iter j S (calls w)) = false).
  { intros j Hj. rewrite <- (Hf j Hj). f_equal.
    clear. induction j; simpl; [lia | rewrite IHj; lia]. }
  assert (T : faults w (Nat.iter k S (calls w)) = true).
  { rewrite <- Ht. f_equal. clear. induction k; simpl; [lia | rewrite IHk; lia]. }
  destruct (users_py.main uuid4 w) as [r w'] eqn:E.
  destruct k as [|[|[|[|[|k]]]]]; [| | | | |lia]; simpl in T.
  - unfold users_py.main, try_except in E.
    rewrite (with_driver_fail _ _ _ T) in E.
    simpl in E. injection E as <- <-. simpl.
    split; [reflexivity|]. split; [exists []; closed_trace|].
    split; reflexivity.
  - pose proof (F 0%nat ltac:(lia)) as F0. simpl in F0.
    unfold users_py.main, try_except in E.
    rewrite (with_driver_ok _ _ _ F0) in E.
    cbv beta in E. unfold bind in E.
    rewrite create_user_nodes_session_fails in E by exact T.
    simpl in E. injection E as <- <-. simpl.
    split; [reflexivity|].
    split; [exists [DriverOpen; DriverClose]; rewrite <- ?app_assoc; closed_trace|].
    split; reflexivity.
  - pose proof (F 0%nat ltac:(lia)) as F0. simpl in F0.
    pose proof (F 1%nat ltac:(lia)) as F1. simpl in F1.
    unfold users_py.main, try_except in E.
    rewrite (with_driver_ok _ _ _ F0) in E.
    cbv beta in E. unfold bind in E.
    rewrite create_user_nodes_run_fails in E by assumption.
    simpl in E. injection E as <- <-. simpl.
    split; [reflexivity|].
    split; [exists [DriverOpen; SessionOpen; SessionClose; DriverClose];
            rewrite <- ?app_assoc; closed_trace|].
    split; reflexivity.
  - pose proof (F 0%nat ltac:(lia)) as F0. simpl in F0.
    pose proof (F 1%nat ltac:(lia)) as F1. simpl in F1.
    pose proof (F 2%nat ltac:(lia)) as F2. simpl in F2.
    main_to_follows E F0.
    rewrite create_follow_relationships_session_fails in E by exact T.
    simpl in E. injection E as <- <-. simpl.
    split; [reflexivity|].
    split; [exists ([DriverOpen] ++ batch_trace ++ [DriverClose]);
            rewrite <- ?app_assoc; closed_trace|].
    split; [reflexivity | lia].
  - pose proof (F 0%nat ltac:(lia)) as F0. simpl in F0.
    pose proof (F 1%nat ltac:(lia)) as F1. simpl in F1.
    pose proof (F 2%nat ltac:(lia)) as F2. simpl in F2.
    pose proof (F 3%nat ltac:(lia)) as F3. simpl in F3.
    main_to_follows E F0.
    erewrite create_follow_relationships_run_fails in E;
      [ | exact F3 | exact T | reflexivity].
    simpl in E. injection E as <- <-. simpl.
    split; [reflexivity|].
    split; [exists ([DriverOpen] ++ batch_trace
                    ++ [SessionOpen; SessionClose; DriverClose]);
            rewrite <- ?app_assoc; closed_trace|].
    split; [reflexivity | lia].
Qed.

Lemma users_main_prints_driver_error_witness :
  let uuid4 := fun k : nat => String (Ascii.ascii_of_nat (65 + k)) "" in
  let w := fresh (fun k => Nat.eqb k 3) in
  fst (users_py.main uuid4 w) = Ok tt
  /\ (exists s,
        trace (snd (users_py.main uuid4 w)) = trace w ++ s ++ [Print]
        /\ count Print s = 0%nat /\ neutral 2 s)
  /\ rels (store (snd (users_py.main uuid4 w))) = rels (store w)
  /\ ((3 <= 2)%nat -> store (snd (users_py.main uuid4 w)) = store w).
Proof.
  intros uuid4 w.
  apply (users_main_prints_driver_error uuid4 w 3).
  - lia.
  - reflexivity.
  - intros j Hj. destruct j as [|[|[|j]]]; try reflexivity. lia.
Defined.




